(** * Echolin.ai: deepfake detection pipeline

    A shallow embedding of the Python sources

    - [detection_model/Deepfake Videos.py]  (module [DeepfakeVideos])
    - [detection_model/deepfake_image.py]   (module [DeepfakeImage])
    - [backend/detector.py]                 (module [Detector])
    - [backend/llm_service.py]              (module [LlmService])
    - [backend/agent.py]                    (module [Agent])
    - [backend/app.py]                      (module [App])

    followed by the properties of the frame sampler, the temporal
    aggregation, the batch runner, the explanation layer, the routes
    and the runs over a directory of videos or images.

    Conventions.  Python exceptions are values of [exn] carried by the
    [result] monad; only instances of [Exception] are modelled (what an
    [except Exception] clause catches).  Python dictionaries with string
    keys are [gmap string value].  Python floats are real numbers:
    [torch.softmax] and the averages are taken exactly, and of the
    scores only what float32 keeps is stated (their order, the bounds 0
    and 1, a positive maximum), while the samples of [np.linspace],
    which are floored to integers, go through an explicit rounding
    function ([Rounding]). *)

From Stdlib Require Import ZArith List Ascii String Reals Lra Lia.
From stdpp Require Import base option list strings pretty gmap.
From Equations Require Import Equations.

Set Warnings "-register-all".
#[local] Open Scope Z_scope.

(** ** Python values, exceptions and the operations the sources use *)

Module Py.

(** An exception: its class name and [str(e)]. *)
Record exn : Type := Exn { exn_class : string; exn_str : string }.

Inductive result (A : Type) : Type :=
| Ok (a : A)
| Raise (e : exn).
Arguments Ok {A} a.
Arguments Raise {A} e.

#[export] Instance result_ret : MRet result := fun A a => Ok a.
#[export] Instance result_bind : MBind result := fun A B f m =>
  match m with
  | Ok a => f a
  | Raise e => Raise e
  end.

(** [try: body  except Exception as e: handler(e)]. *)
Definition try_except {A : Type} (body : result A) (handler : exn -> result A)
  : result A :=
  match body with
  | Ok a => Ok a
  | Raise e => handler e
  end.

(** A list comprehension [[f(x) for x in l]]: left to right, the first
    exception aborts it. *)
Fixpoint comprehension {A B : Type} (f : A -> result B) (l : list A)
  : result (list B) :=
  match l with
  | [] => Ok []
  | x :: l' => y ← f x; ys ← comprehension f l'; Ok (y :: ys)
  end.

(** Dynamically typed values: what JSON bodies and result dictionaries
    hold. *)
Inductive value : Type :=
| VNone
| VBool (b : bool)
| VNum (r : R)
| VStr (s : string)
| VList (l : list value)
| VDict (d : gmap string value).

Definition IndexError : exn := Exn "IndexError" "list index out of range".
Definition KeyError (k : string) : exn := Exn "KeyError" ("'" +:+ k +:+ "'").
Definition TypeError (m : string) : exn := Exn "TypeError" m.
Definition AttributeError (m : string) : exn := Exn "AttributeError" m.
Definition ValueError (m : string) : exn := Exn "ValueError" m.

(** [l[i]] on a list: a negative index counts from the end. *)
Definition getitem {A : Type} (l : list A) (i : Z) : result A :=
  let n := Z.of_nat (length l) in
  let j := if i <? 0 then i + n else i in
  if (0 <=? j) && (j <? n)
  then match l !! Z.to_nat j with
       | Some x => Ok x
       | None => Raise IndexError
       end
  else Raise IndexError.

(** [d[k]] on a dictionary. *)
Definition dict_getitem {V : Type} (d : gmap string V) (k : string) : result V :=
  match d !! k with
  | Some v => Ok v
  | None => Raise (KeyError k)
  end.

(** [d[i]] on a dictionary keyed by integers (a model's [id2label]). *)
Definition dict_getitem_int {V : Type} (d : gmap nat V) (i : nat) : result V :=
  match d !! i with
  | Some v => Ok v
  | None => Raise (Exn "KeyError" (pretty i))
  end.

(** [list(range(n))]. *)
Definition range (n : nat) : list Z := Z.of_nat <$> seq 0 n.

(** [sum(l)] over floats (over the reals the order of the additions
    does not matter). *)
Definition sum (l : list R) : R := foldr Rplus 0%R l.

(** [s.startswith(p)]. *)
Definition startswith (s p : string) : bool := String.prefix p s.




End Py.
Export Py.


(** ** The numerical library calls: [numpy.linspace], [torch.softmax],
       [argmax], [max] *)

Module Numeric.

(** binary64 arithmetic, by its standard model with unbounded exponent
    range: [fl x] is the double nearest to the real [x], off by a
    relative error of at most [eps] (2^-53 for binary64); the integers
    up to 2^53 are doubles.  The numbers met in [np.linspace] below are
    0 or lie between 1 and 2^53, far from underflow and overflow. *)
Record Rounding : Type := {
  fl : R -> R;
  eps : R;
  eps_nonneg : (0 <= eps)%R;
  fl_error : forall x : R, (Rabs (fl x - x) <= eps * Rabs x)%R;
  fl_integer : forall n : Z, Z.abs n <= 2 ^ 53 -> fl (IZR n) = IZR n;
  fl_idempotent : forall x : R, fl (fl x) = fl x
}.

(** An integer converted to float64. *)
Definition to_float (fp : Rounding) (n : Z) : R := fl fp (IZR n).

(** Sample [i] of [np.linspace(start, stop, num)] before it is floored.
    numpy takes [delta = stop - start] and [y = arange(num)] as floats;
    with [div = num - 1 > 0] and [step = delta / div] it computes
    [y * step] (or [y / div * delta] when [step] is zero), otherwise
    [y * delta]; then it adds [start] and, when [num > 1], overwrites the
    last sample by [stop]. *)
Definition linspace_sample (fp : Rounding) (start stop num : Z) (i : Z) : R :=
  let div := num - 1 in
  let delta := fl fp (to_float fp stop - to_float fp start) in
  let y := to_float fp i in
  let y :=
    if 0 <? div
    then let step := fl fp (delta / to_float fp div) in
         if Req_dec_T step 0
         then fl fp (fl fp (y / to_float fp div) * delta)
         else fl fp (y * step)
    else fl fp (y * delta) in
  let y := fl fp (y + to_float fp start) in
  if (1 <? num) && (i =? num - 1) then to_float fp stop else y.

(** [np.linspace(start, stop, num, dtype=int)] for integer end points:
    the samples floored ([np.floor], then the cast to int); a negative
    [num] raises. *)
Definition linspace_int (fp : Rounding) (start stop num : Z) : result (list Z) :=
  if num <? 0
  then Raise (ValueError ("Number of samples, " +:+ pretty num
                          +:+ ", must be non-negative."))
  else Ok ((fun i => Zfloor (linspace_sample fp start stop num i))
           <$> range (Z.to_nat num)).

(** [torch.softmax] along the class dimension, over the reals.  torch
    computes it in float32, which keeps the order of the scores and
    their bounds 0 and 1 and leaves the largest score positive, but
    lets a small score underflow to 0 and the scores sum to a little
    more or less than 1: of a program's scores only the former facts
    are stated below. *)
Definition softmax (logits : list R) : list R :=
  let z := Py.sum (exp <$> logits) in
  (fun x => (exp x / z)%R) <$> logits.

(** Index of the first maximum, scanning left to right. *)
Fixpoint argmax_from (best_i : nat) (best : R) (i : nat) (l : list R) : nat :=
  match l with
  | [] => best_i
  | x :: l' =>
      if Rlt_dec best x
      then argmax_from i x (S i) l'
      else argmax_from best_i best (S i) l'
  end.

(** [t.argmax(-1).item()]: an empty tensor has no argmax. *)
Definition argmax (l : list R) : result nat :=
  match l with
  | [] => Raise (Exn "IndexError" "argmax(): Expected reduction dim to have non-zero size.")
  | x :: l' => Ok (argmax_from 0 x 1 l')
  end.

(** [t.max().item()]. *)
Definition tensor_max (l : list R) : result R :=
  match l with
  | [] => Raise (Exn "RuntimeError" "max(): Expected reduction dim to have non-zero size.")
  | x :: l' => Ok (foldl Rmax x l')
  end.

End Numeric.
Export Numeric.

(** ** detection_model/Deepfake Videos.py *)

Module DeepfakeVideos.

(** The [DeepfakeDetector] object: the loaded model and what it is given
    by its environment.  [capture path] is the sequence of frames that
    successive [cap.read()] calls return for [cv2.VideoCapture(path)]
    before [ret] turns false. *)
Record DeepfakeDetector : Type := {
  RawFrame : Type;
  Frame : Type;
  Tensor : Type;
  float64 : Rounding;
  num_frames : Z;
  id2label : gmap nat string;
  capture : string -> list RawFrame;
  cvtColor : RawFrame -> Frame;
  (* resize, normalise and stack the sampled frames *)
  to_tensor : list Frame -> result Tensor;
  (* self.model(pixel_values=...).logits *)
  forward : Tensor -> result (list R)
}.

(** The padding loop
    [while len(indices) < num_samples: indices.append(total_frames - 1)]. *)
Equations while_append (indices : list Z) (num_samples : Z) (last : Z) : list Z
  by wf (Z.to_nat (num_samples - Z.of_nat (length indices))) lt :=
while_append indices num_samples last
  with Z_lt_dec (Z.of_nat (length indices)) num_samples := {
  | left _ => while_append (indices ++ [last]) num_samples last
  | right _ => indices }.
Next Obligation. rewrite length_app; simpl; lia. Qed.

(** The indices chosen by [uniform_temporal_subsample] for a video of
    [total_frames] frames. *)
Definition subsample_indices (fp : Rounding) (total_frames : nat)
    (num_samples : Z) : result (list Z) :=
  if Z.of_nat total_frames <=? num_samples
  then Ok (while_append (range total_frames) num_samples
             (Z.of_nat total_frames - 1))
  else linspace_int fp 0 (Z.of_nat total_frames - 1) num_samples.

Definition uniform_temporal_subsample {A : Type} (fp : Rounding)
    (frames : list A) (num_samples : Z) : result (list A) :=
  indices ← subsample_indices fp (length frames) num_samples;
  comprehension (getitem frames) indices.

(** The message of the [ValueError] raised when no frame was read. *)
Definition no_frames_message (video_path : string) : string :=
  "Could not read any frames from " +:+ video_path.

(** The record returned for a video whose processing raised. *)
Definition error_result (video_path message : string) : gmap string value :=
  <["video_path" := VStr video_path]> (<["error" := VStr message]> ∅).

(** The read loop of [preprocess_video]. *)
Fixpoint read_loop (self : DeepfakeDetector) (cap : list (RawFrame self))
    (frames : list (Frame self)) : list (Frame self) :=
  match cap with
  | [] => frames
  | frame :: cap' => read_loop self cap' (frames ++ [cvtColor self frame])
  end.

Definition preprocess_video (self : DeepfakeDetector) (video_path : string)
  : result (Tensor self) :=
  let frames := read_loop self (capture self video_path) [] in
  if (length frames =? 0)%nat
  then Raise (ValueError (no_frames_message video_path))
  else
    sampled_frames ← uniform_temporal_subsample (float64 self) frames
                       (num_frames self);
    to_tensor self sampled_frames.

Definition predict_single_video (self : DeepfakeDetector) (video_path : string)
  : result (gmap string value) :=
  try_except
    (pixel_values ← preprocess_video self video_path;
     logits ← forward self pixel_values;
     let probabilities := softmax logits in
     predicted_class_idx ← argmax logits;
     confidence ← tensor_max probabilities;
     label ← (if decide (id2label self = ∅)
              then Ok (if (predicted_class_idx =? 1)%nat then "FAKE" else "REAL")
              else dict_getitem_int (id2label self) predicted_class_idx);
     Ok (<["video_path" := VStr video_path]>
         (<["prediction" := VStr label]>
         (<["confidence" := VNum confidence]>
         (<["predicted_class_idx" := VNum (INR predicted_class_idx)]>
         (<["all_probabilities" := VList (VNum <$> probabilities)]>
         (<["raw_logits" := VList (VNum <$> logits)]> ∅)))))))
    (fun e => Ok (error_result video_path (exn_str e))).



(** The record of a prediction (lines 143-150). *)
Definition prediction_record (video_path label : string) (confidence : R)
    (predicted_class_idx : nat) (probabilities logits : list R)
  : gmap string value :=
  <["video_path" := VStr video_path]>
  (<["prediction" := VStr label]>
  (<["confidence" := VNum confidence]>
  (<["predicted_class_idx" := VNum (INR predicted_class_idx)]>
  (<["all_probabilities" := VList (VNum <$> probabilities)]>
  (<["raw_logits" := VList (VNum <$> logits)]> ∅))))).







End DeepfakeVideos.

(** ** detection_model/deepfake_image.py *)

Module DeepfakeImage.

(** What [load_model] returns, with the image loader it is used with. *)
Record ImageModel : Type := {
  Img : Type;
  (* Image.open(image_path) *)
  image_open : string -> result Img;
  (* the logits of the model on image_processor(images=image) *)
  logits_of : Img -> result (list R)
}.

(** Returns [(label, confidence)], or [(None, None)] after an exception. *)
Definition predict_single_image (m : ImageModel) (image_path : string)
  : result (option string * option R) :=
  try_except
    (image ← image_open m image_path;
     logits ← logits_of m image;
     pred ← argmax logits;
     confidence ← getitem (softmax logits) (Z.of_nat pred);
     let label := if (pred =? 1)%nat then "Real" else "Fake" in
     Ok (Some label, Some confidence))
    (fun e => Ok (None, None)).








End DeepfakeImage.

(** ** backend/detector.py *)

Module Detector.

(** [iter] is an iteration order of [set(labels)]: every label once.
    Python fixes no order for a set of strings (string hashes are salted
    per process). *)
Definition SetIteration (labels iter : list string) : Prop :=
  NoDup iter /\ iter ⊆ labels /\ labels ⊆ iter.

#[export] Instance SetIteration_dec labels iter : Decision (SetIteration labels iter).
Proof. unfold SetIteration; apply _. Defined.

(** An opened [cv2.VideoCapture]: whether [isOpened()] holds and the
    frames that successive [read()] calls return before [ret] turns
    false. *)
Record VideoCapture (F : Type) : Type := {
  isOpened : bool;
  stream : list F
}.
Arguments isOpened {F} _.
Arguments stream {F} _.

(** The module-level model and the library calls of the two detectors. *)
Record Runtime : Type := {
  Upload : Type;
  Img : Type;
  BgrFrame : Type;
  id2label : gmap nat string;
  (* Image.open(file).convert("RGB") *)
  image_open : Upload -> result Img;
  (* the logits of the model on image_processor(images=image) *)
  logits_of : Img -> result (list R);
  (* the temporary copy of the upload, opened with cv2.VideoCapture *)
  video_capture : Upload -> result (VideoCapture BgrFrame);
  (* Image.fromarray(cv2.cvtColor(frame, cv2.COLOR_BGR2RGB)) *)
  frame_image : BgrFrame -> result Img;
  (* iteration order of set(...) *)
  set_order : list string -> list string;
  set_order_spec : forall labels, SetIteration labels (set_order labels)
}.

(** Lines 19-22 and 53-56: label and confidence from the logits. *)
Definition classify (rt : Runtime) (image : Img rt) : result (string * R) :=
  logits ← logits_of rt image;
  predicted_class_idx ← argmax logits;
  label ← dict_getitem_int (id2label rt) predicted_class_idx;
  confidence ← tensor_max (softmax logits);
  Ok (label, confidence).

Definition detection_record (type label : string) (confidence : R)
    (artifact : string) : gmap string value :=
  <["type" := VStr type]>
  (<["label" := VStr label]>
  (<["confidence" := VNum confidence]>
  (<["artifacts" :=
       VList [VDict (<["type" := VStr artifact]>
                     (<["score" := VNum (confidence * 100)]> ∅))]]> ∅))).

Definition error_record (message : string) : gmap string value :=
  <["error" := VStr message]> ∅.

Definition detect_image (rt : Runtime) (file : Upload rt)
  : result (gmap string value) :=
  try_except
    (image ← image_open rt file;
     '(label, confidence) ← classify rt image;
     Ok (detection_record "image" label confidence "face_texture"))
    (fun e => Ok (error_record ("Image detection failed: " +:+ exn_str e))).

(** Lines 47-56: the prediction for one decoded frame. *)
Definition classify_frame (rt : Runtime) (frame : BgrFrame rt) : result (string * R) :=
  image ← frame_image rt frame;
  classify rt image.

(** [while frames_analyzed < 10 and cap.isOpened(): ...]. *)
Fixpoint frame_loop (rt : Runtime) (opened : bool) (cap : list (BgrFrame rt))
    (frames_analyzed : nat) (results : list (string * R))
  : result (list (string * R)) :=
  if (frames_analyzed <? 10)%nat && opened
  then match cap with
       | [] => Ok results
       | frame :: cap' =>
           '(label, confidence) ← classify_frame rt frame;
           frame_loop rt opened cap' (S frames_analyzed)
             (results ++ [(label, confidence)])
       end
  else Ok results.

(** [sum(1 for r in results if r[0] == l)]. *)
Definition count_label (results : list (string * R)) (l : string) : nat :=
  length (filter (fun r => r.1 = l) results).

(** [max(iterable, key=key)]: the first item whose key is not exceeded. *)
Fixpoint max_loop (key : string -> nat) (best : string) (rest : list string)
  : string :=
  match rest with
  | [] => best
  | x :: rest' =>
      if (key best <? key x)%nat
      then max_loop key x rest'
      else max_loop key best rest'
  end.

Definition py_max (key : string -> nat) (iterable : list string) : result string :=
  match iterable with
  | [] => Raise (ValueError "max() arg is an empty sequence")
  | x :: rest => Ok (max_loop key x rest)
  end.

(** Line 62, with [label_set] the labels of [results] in the iteration
    order of their set. *)
Definition final_label (label_set : list string) (results : list (string * R))
  : result string :=
  py_max (count_label results) label_set.

(** Line 63. *)
Definition avg_confidence (results : list (string * R)) (label : string)
  : result R :=
  let total := Py.sum ((fun r => r.2) <$> filter (fun r => r.1 = label) results) in
  if (length results =? 0)%nat
  then Raise (Exn "ZeroDivisionError" "division by zero")
  else Ok (total / INR (length results))%R.

(** The confidence the specification describes: the arithmetic mean of
    the confidences of the entries whose label is [label]. *)
Definition mean_of_matching (results : list (string * R)) (label : string) : R :=
  (Py.sum ((fun r => r.2) <$> filter (fun r => r.1 = label) results)
   / INR (count_label results label))%R.

(** Lines 62-63 together. *)
Definition aggregate (label_set : list string) (results : list (string * R))
  : result (string * R) :=
  label ← final_label label_set results;
  confidence ← avg_confidence results label;
  Ok (label, confidence).

Definition detect_video (rt : Runtime) (file : Upload rt)
  : result (gmap string value) :=
  try_except
    (cap ← video_capture rt file;
     results ← frame_loop rt (isOpened cap) (stream cap) 0 [];
     '(label, confidence) ←
        aggregate (set_order rt ((fun r => r.1) <$> results)) results;
     Ok (detection_record "video" label confidence "frame_consistency"))
    (fun e => Ok (error_record ("Video detection failed: " +:+ exn_str e))).

(** The frames a capture can deliver: none when it did not open. *)
Definition decodable {F : Type} (cap : VideoCapture F) : list F :=
  if isOpened cap then stream cap else [].

(** The two shapes of a detector's response. *)
Definition detector_response (d : gmap string value) : Prop :=
  (exists (type label : string) (confidence : R) (artifact : string),
     d = detection_record type label confidence artifact)
  \/ (exists message : string, d = error_record message).

(** A response that carries the detection fields. *)
Definition is_detection (d : gmap string value) : Prop :=
  exists (type label : string) (confidence : R) (artifacts : list value),
    d !! "type" = Some (VStr type)
    /\ d !! "label" = Some (VStr label)
    /\ d !! "confidence" = Some (VNum confidence)
    /\ d !! "artifacts" = Some (VList artifacts).

(** A response that carries an ["error"] key with a message. *)
Definition is_error (d : gmap string value) : Prop :=
  exists message : string, d !! "error" = Some (VStr message).

End Detector.

(** ** backend/llm_service.py *)

Module LlmService.

Definition SYSTEM_PROMPTS : gmap string string :=
  <["analysis" := "You are DeepShield AI, a forensic expert in deepfake detection. Provide detailed, professional analysis of detection results in clear, educational language."]>
  (<["educational" := "You are DeepShield AI, an expert educator in AI security and deepfake detection. Explain complex concepts clearly and adapt to the user's technical level."]>
  (<["conversational" := "You are DeepShield AI, a helpful AI security expert. Provide professional yet approachable responses about deepfakes, AI security, and digital forensics."]>
  (<["threat_analysis" := "You are DeepShield AI, a cybersecurity expert specializing in deepfake threats. Provide comprehensive threat landscape analysis."]> ∅))).

Definition FALLBACKS : gmap string string :=
  <["analysis" := "Based on multi-method forensic analysis, this content shows the indicated confidence level for authenticity assessment."]>
  (<["educational" := "Advanced computer vision and ML techniques were used, including facial landmarks, texture patterns, and frequency-based filters."]>
  (<["threat_analysis" := "Deepfakes pose threats to democracy, finance, and individual safety. Early detection is vital to protect digital ecosystems."]>
  (<["conversational" := "I'm DeepShield AI, your assistant in spotting and explaining deepfakes. Ask me anything about media security!"]> ∅))).

(** A [requests.Response]: its status code and what [response.json()]
    gives (an exception when the body is not JSON). *)
Record Response : Type := {
  status_code : Z;
  json : result value
}.

(** The process environment and the libraries outside the repository:
    the two environment variables, [requests.post], and the two
    float-to-text conversions of f-strings. *)
Record Env : Type := {
  API_KEY : option string;
  API_URL : string;
  (* requests.post(url, headers=headers, json=body) *)
  requests_post : string -> gmap string string -> gmap string value -> result Response;
  (* format(x, ".1f") *)
  format_1f : R -> string;
  (* str(v) *)
  str : value -> string
}.

(** [response.raise_for_status()]: an [HTTPError] for the codes 400 to
    599, nothing otherwise. *)
Definition raise_for_status (response : Response) : result unit :=
  if (400 <=? status_code response) && (status_code response <? 600)
  then Raise (Exn "HTTPError" "HTTP error response")
  else Ok ().

(** [v.get]: only a dictionary has the method. *)
Definition get_method (v : value) : result (string -> value -> value) :=
  match v with
  | VDict d => Ok (fun k dflt => default dflt (d !! k))
  | _ => Raise (AttributeError "object has no attribute 'get'")
  end.

(** [v.get(k, dflt)] with [dflt] already evaluated. *)
Definition value_get (v : value) (k : string) (dflt : value) : result value :=
  get ← get_method v; Ok (get k dflt).

(** [v[0]]. *)
Definition subscript0 (v : value) : result value :=
  match v with
  | VList l => getitem l 0
  | VDict _ => Raise (Exn "KeyError" "0")
  | VStr EmptyString => Raise (Exn "IndexError" "string index out of range")
  | VStr (String c _) => Ok (VStr (String c EmptyString))
  | _ => Raise (TypeError "object is not subscriptable")
  end.

(** [context[-6:]]. *)
Definition last6 {A : Type} (context : list A) : list A :=
  drop (length context - 6)%nat context.

Definition message (role content : string) : value :=
  VDict (<["role" := VStr role]> (<["content" := VStr content]> ∅)).

(** The headers and the JSON body of the request. *)
Definition request_headers (env : Env) : gmap string string :=
  <["Authorization" := "Bearer " +:+ default "None" (API_KEY env)]>
  (<["Content-Type" := "application/json"]> ∅).

Definition request_body (messages : list value) : gmap string value :=
  <["model" := VStr "gpt-3.5-turbo"]>
  (<["messages" := VList messages]>
  (<["max_tokens" := VNum 600]>
  (<["temperature" := VNum (7 / 10)]> ∅))).

(** Line 43:
    [data.get("choices", [{}])[0].get("message", {}).get("content", FALLBACKS[intent])]. *)
Definition completion_text (data : value) (intent : string) : result value :=
  choices ← value_get data "choices" (VList [VDict ∅]);
  choice ← subscript0 choices;
  msg ← value_get choice "message" (VDict ∅);
  get ← get_method msg;
  fallback ← dict_getitem FALLBACKS intent;
  Ok (get "content" (VStr fallback)).

(** [SYSTEM_PROMPTS.get(intent, SYSTEM_PROMPTS["conversational"])]. *)
Definition system_prompt (intent : string) : result string :=
  conversational ← dict_getitem SYSTEM_PROMPTS "conversational";
  Ok (default conversational (SYSTEM_PROMPTS !! intent)).

Definition chat_messages (system : string) (context : list value)
    (prompt : string) : list value :=
  [message "system" system] ++ last6 context ++ [message "user" prompt].

Definition generate_response (env : Env) (prompt intent : string)
    (context : list value) : result value :=
  let headers := request_headers env in
  system ← system_prompt intent;
  let messages := chat_messages system context prompt in
  let body := request_body messages in
  try_except
    (response ← requests_post env (API_URL env) headers body;
     _ ← raise_for_status response;
     data ← json response;
     completion_text data intent)
    (fun e => fallback ← dict_getitem FALLBACKS intent; Ok (VStr fallback)).

(** [s.lower()], on the ASCII letters. *)
Definition lower_ascii (c : ascii) : ascii :=
  let n := Ascii.nat_of_ascii c in
  if (65 <=? n)%nat && (n <=? 90)%nat then Ascii.ascii_of_nat (n + 32) else c.

Fixpoint lower (s : string) : string :=
  match s with
  | EmptyString => EmptyString
  | String c s' => String (lower_ascii c) (lower s')
  end.

Definition str_lower (v : value) : result string :=
  match v with
  | VStr s => Ok (lower s)
  | _ => Raise (AttributeError "object has no attribute 'lower'")
  end.

(** [f"{v * 100:.1f}"]. *)
Definition percent_1f (env : Env) (v : value) : result string :=
  match v with
  | VNum r => Ok (format_1f env (r * 100))
  | VBool b => Ok (format_1f env (if b then 100 else 0))
  | VStr _ => Raise (ValueError "Unknown format code 'f' for object of type 'str'")
  | VList _ => Raise (TypeError "unsupported format string passed to list.__format__")
  | VNone | VDict _ => Raise (TypeError "unsupported operand type(s) for *")
  end.

(** [for a in v]. *)
Definition iterate (v : value) : result (list value) :=
  match v with
  | VList l => Ok l
  | VStr s => Ok ((fun c => VStr (String c EmptyString)) <$> list_ascii_of_string s)
  | VDict d => Ok ((fun kv => VStr kv.1) <$> map_to_list d)
  | _ => Raise (TypeError "object is not iterable")
  end.

(** [sep.join(items)]: every item must be a string. *)
Definition join (sep : string) (items : list value) : result string :=
  strs ← comprehension
           (fun v => match v with
                     | VStr s => Ok s
                     | _ => Raise (TypeError "sequence item: expected str instance")
                     end) items;
  Ok (String.concat sep strs).

(** [s or dflt]. *)
Definition or_else (s dflt : string) : string :=
  if decide (s = "") then dflt else s.

Definition newline : string := String (Ascii.ascii_of_nat 10) EmptyString.
Definition dquote : string := String (Ascii.ascii_of_nat 34) EmptyString.

Definition generate_analysis_explanation (env : Env) (result : gmap string value)
    (filename technical_level : string) : Py.result value :=
  confidence ← percent_1f env (default (VNum 0) (result !! "confidence"));
  label ← str_lower (default (VStr "") (result !! "label"));
  let is_deepfake :=
    if decide (label = "fake") then "DEEPFAKE DETECTED" else "AUTHENTIC CONTENT" in
  let artifacts := default (VList []) (result !! "artifacts") in
  items ← iterate artifacts;
  types ← comprehension (fun a => value_get a "type" (VStr "unknown")) items;
  summary ← join ", " types;
  let artifact_summary := or_else summary "None detected" in
  details ← comprehension
              (fun a =>
                 get ← get_method a;
                 score ← percent_1f env (get "score" (VNum 0));
                 Ok (VStr (str env (get "type" VNone) +:+ ": " +:+ score +:+ "%")))
              items;
  details ← join "; " details;
  let artifact_details := or_else details "No artifacts to report." in
  let prompt :=
    "Analysis Results for " +:+ dquote +:+ filename +:+ dquote +:+ ":" +:+ newline
    +:+ "- Classification: " +:+ is_deepfake +:+ newline
    +:+ "- Confidence Score: " +:+ confidence +:+ "%" +:+ newline
    +:+ "- Detection Methods: " +:+ artifact_summary +:+ newline
    +:+ "- Key Findings: " +:+ artifact_details +:+ newline +:+ newline
    +:+ "User Technical Level: " +:+ technical_level +:+ newline +:+ newline
    +:+ "Generate a professional forensic analysis report explaining these findings. Include:" +:+ newline
    +:+ "1. Executive summary" +:+ newline
    +:+ "2. Explanation of detection methods used" +:+ newline
    +:+ "3. Key evidence found" +:+ newline
    +:+ "4. Confidence assessment" +:+ newline
    +:+ "5. Recommendations" +:+ newline +:+ newline
    +:+ "Adapt the technical depth to the user's level: " +:+ technical_level +:+ "." in
  generate_response env prompt "analysis" [].

(** The completion text of a well-formed response body: the value at
    [choices[0].message.content] of a JSON object, when every step of
    that path exists. *)
Definition completion_content (data : value) : option value :=
  match data with
  | VDict d =>
      match d !! "choices" with
      | Some (VList (VDict choice :: _)) =>
          match choice !! "message" with
          | Some (VDict msg) => msg !! "content"
          | _ => None
          end
      | _ => None
      end
  | _ => None
  end.

(** The failures of the call that [generate_response] detects: the
    request raised, the status is a 4xx or 5xx code, the body is not
    JSON, or the body has no [choices[0].message.content]. *)
Inductive call_failed : result Response -> Prop :=
| request_raised (e : exn) : call_failed (Raise e)
| error_status (r : Response) :
    400 <= status_code r < 600 -> call_failed (Ok r)
| body_not_json (r : Response) (e : exn) :
    json r = Raise e -> call_failed (Ok r)
| body_without_content (r : Response) (data : value) :
    json r = Ok data -> completion_content data = None -> call_failed (Ok r).

(** The failures as the specification lists them: the request raised,
    the status is not a 2xx code, or the body is malformed (not JSON,
    without [choices[0].message.content], or with a content that is not
    a string). *)
Inductive spec_call_failed : result Response -> Prop :=
| spec_request_raised (e : exn) : spec_call_failed (Raise e)
| spec_non_2xx (r : Response) :
    ~ (200 <= status_code r < 300) -> spec_call_failed (Ok r)
| spec_body_not_json (r : Response) (e : exn) :
    json r = Raise e -> spec_call_failed (Ok r)
| spec_body_without_content (r : Response) (data : value) :
    json r = Ok data -> completion_content data = None -> spec_call_failed (Ok r)
| spec_content_not_text (r : Response) (data content : value) :
    json r = Ok data ->
    completion_content data = Some content ->
    (forall text : string, content <> VStr text) ->
    spec_call_failed (Ok r).

(** The prompt of [generate_analysis_explanation] (lines 57-71), given
    the texts it interpolates. *)
Definition analysis_prompt (filename is_deepfake confidence artifact_summary
    artifact_details technical_level : string) : string :=
  "Analysis Results for " +:+ dquote +:+ filename +:+ dquote +:+ ":" +:+ newline
  +:+ "- Classification: " +:+ is_deepfake +:+ newline
  +:+ "- Confidence Score: " +:+ confidence +:+ "%" +:+ newline
  +:+ "- Detection Methods: " +:+ artifact_summary +:+ newline
  +:+ "- Key Findings: " +:+ artifact_details +:+ newline +:+ newline
  +:+ "User Technical Level: " +:+ technical_level +:+ newline +:+ newline
  +:+ "Generate a professional forensic analysis report explaining these findings. Include:" +:+ newline
  +:+ "1. Executive summary" +:+ newline
  +:+ "2. Explanation of detection methods used" +:+ newline
  +:+ "3. Key evidence found" +:+ newline
  +:+ "4. Confidence assessment" +:+ newline
  +:+ "5. Recommendations" +:+ newline +:+ newline
  +:+ "Adapt the technical depth to the user's level: " +:+ technical_level +:+ ".".

(** Lines 50-71 of [generate_analysis_explanation]: the prompt it builds
    from a result, before the request is made. *)
Definition analysis_explanation_prompt (env : Env) (result : gmap string value)
    (filename technical_level : string) : Py.result string :=
  confidence ← percent_1f env (default (VNum 0) (result !! "confidence"));
  label ← str_lower (default (VStr "") (result !! "label"));
  let is_deepfake :=
    if decide (label = "fake") then "DEEPFAKE DETECTED" else "AUTHENTIC CONTENT" in
  let artifacts := default (VList []) (result !! "artifacts") in
  items ← iterate artifacts;
  types ← comprehension (fun a => value_get a "type" (VStr "unknown")) items;
  summary ← join ", " types;
  let artifact_summary := or_else summary "None detected" in
  details ← comprehension
              (fun a =>
                 get ← get_method a;
                 score ← percent_1f env (get "score" (VNum 0));
                 Ok (VStr (str env (get "type" VNone) +:+ ": " +:+ score +:+ "%")))
              items;
  details ← join "; " details;
  let artifact_details := or_else details "No artifacts to report." in
  Ok (analysis_prompt filename is_deepfake confidence artifact_summary
        artifact_details technical_level).

End LlmService.

(** ** backend/agent.py *)

Module Agent.

(** Steps 2 and 3 of [deepfake_agent]: the explanation, and the combined
    result. *)
Definition explain (env : LlmService.Env) (filename : string)
    (technical_level : string) (detection_result : gmap string value)
  : result (gmap string value) :=
  explanation ←
    try_except
      (LlmService.generate_analysis_explanation env detection_result
         filename technical_level)
      (fun e => Ok (VStr "LLM explanation failed. Core detection succeeded."));
  Ok (<["explanation" := explanation]> detection_result).

(** [filename file] is [getattr(file, 'filename', 'uploaded_file')]. *)
Definition deepfake_agent (rt : Detector.Runtime) (env : LlmService.Env)
    (filename : Detector.Upload rt -> string)
    (file : Detector.Upload rt) (file_type technical_level : string)
  : result (gmap string value) :=
  if startswith file_type "image/"
  then detection_result ← Detector.detect_image rt file;
       explain env (filename file) technical_level detection_result
  else if startswith file_type "video/"
  then detection_result ← Detector.detect_video rt file;
       explain env (filename file) technical_level detection_result
  else Ok (Detector.error_record "Unsupported file type").

(** [deepfake_agent] for whatever the caller passes as [file_type]: a
    part without Content-Type gives [None], which has no [startswith]
    (line 18, outside the [try]). *)
Definition deepfake_agent_dyn (rt : Detector.Runtime) (env : LlmService.Env)
    (filename : Detector.Upload rt -> string)
    (file : Detector.Upload rt) (file_type : option string)
    (technical_level : string) : result (gmap string value) :=
  match file_type with
  | Some t => deepfake_agent rt env filename file t technical_level
  | None => Raise (AttributeError "'NoneType' object has no attribute 'startswith'")
  end.

End Agent.

(** ** backend/app.py *)

Module App.

(** What a route returns: the JSON body and the status code. *)
Record HttpResponse : Type := {
  body : gmap string value;
  status : Z
}.

(** [jsonify(d), code], and [jsonify(d)] alone, which Flask answers
    with status 200. *)
Definition jsonify (d : gmap string value) (code : Z) : HttpResponse :=
  {| body := d; status := code |}.

(** [file_type.startswith]: [content_type] is [None] when the part has
    no Content-Type header. *)
Definition startswith_method (file_type : option string)
  : result (string -> bool) :=
  match file_type with
  | Some t => Ok (startswith t)
  | None => Raise (AttributeError "'NoneType' object has no attribute 'startswith'")
  end.

(** What Werkzeug raises when the body is longer than
    [MAX_CONTENT_LENGTH] (line 10); Flask answers it with status 413. *)
Definition RequestEntityTooLarge : exn :=
  Exn "RequestEntityTooLarge"
    "413 Request Entity Too Large: The data value transmitted exceeds the capacity limit.".

(** The route [/api/detect].  [request_files] is the outcome of reading
    [request.files] (lines 15 and 18): the part named 'file', if there
    is one, or the exception raised while the form is parsed, which is
    [RequestEntityTooLarge] for a body over the limit of line 10.  The
    read is outside the [try]: its exception leaves the view. *)
Definition detect (rt : Detector.Runtime)
    (content_type : Detector.Upload rt -> option string)
    (request_files : result (option (Detector.Upload rt))) : result HttpResponse :=
  files ← request_files;
  match files with
  | None => Ok (jsonify (Detector.error_record "No file uploaded") 400)
  | Some file =>
      let file_type := content_type file in
      try_except
        (prefix ← startswith_method file_type;
         if (prefix "image/" : bool)
         then result ← Detector.detect_image rt file; Ok (jsonify result 200)
         else if (prefix "video/" : bool)
         then result ← Detector.detect_video rt file; Ok (jsonify result 200)
         else Ok (jsonify (Detector.error_record "Unsupported file type") 400))
        (fun e => Ok (jsonify (Detector.error_record (exn_str e)) 500))
  end.

(** [deepfake_agent(file, file_type)] as the route calls it: the type
    may be [None], the technical level is the default one. *)
Definition call_deepfake_agent (rt : Detector.Runtime) (env : LlmService.Env)
    (filename : Detector.Upload rt -> string)
    (file : Detector.Upload rt) (file_type : option string)
  : result (gmap string value) :=
  Agent.deepfake_agent_dyn rt env filename file file_type "intermediate".

(** The route [/api/agent-detect]; [request_files] as for [detect]
    (lines 36 and 39). *)
Definition agent_detect (rt : Detector.Runtime) (env : LlmService.Env)
    (filename : Detector.Upload rt -> string)
    (content_type : Detector.Upload rt -> option string)
    (request_files : result (option (Detector.Upload rt))) : result HttpResponse :=
  files ← request_files;
  match files with
  | None => Ok (jsonify (Detector.error_record "No file uploaded") 400)
  | Some file =>
      let file_type := content_type file in
      try_except
        (result ← call_deepfake_agent rt env filename file file_type;
         Ok (jsonify result 200))
        (fun e => Ok (jsonify (Detector.error_record (exn_str e)) 500))
  end.

End App.

(** ** Sample environments *)

Module Examples.

(** Labels in first-occurrence order, and in the reverse of it: two of
    the orders in which a set of labels can be iterated. *)
Definition first_seen (labels : list string) : list string := remove_dups labels.
Definition last_seen (labels : list string) : list string :=
  reverse (remove_dups labels).

(** Arithmetic without rounding error. *)
Lemma exact_error (x : R) : (Rabs (x - x) <= 0 * Rabs x)%R.
Proof. rewrite Rminus_diag, Rabs_R0. lra. Qed.

Definition exact_arithmetic : Rounding := {|
  fl := fun x => x;
  eps := 0;
  eps_nonneg := Rle_refl 0;
  fl_error := exact_error;
  fl_integer := fun n _ => eq_refl;
  fl_idempotent := fun x => eq_refl
|}.

(** A detector over videos given by name: ["empty.mp4"] decodes to no
    frame, any other path to three frames; the model scores every clip
    [0, 1]. *)
Definition detector : DeepfakeVideos.DeepfakeDetector := {|
  DeepfakeVideos.RawFrame := nat;
  DeepfakeVideos.Frame := nat;
  DeepfakeVideos.Tensor := list nat;
  DeepfakeVideos.float64 := exact_arithmetic;
  DeepfakeVideos.num_frames := 16;
  DeepfakeVideos.id2label := <[0%nat := "REAL"]> (<[1%nat := "FAKE"]> ∅);
  DeepfakeVideos.capture := fun path =>
    if decide (path = "empty.mp4") then [] else [1; 2; 3]%nat;
  DeepfakeVideos.cvtColor := fun frame => frame;
  DeepfakeVideos.to_tensor := fun frames => Ok frames;
  DeepfakeVideos.forward := fun _ => Ok [0%R; 1%R]
|}.

Lemma first_seen_spec (labels : list string) :
  Detector.SetIteration labels (first_seen labels).
Proof.
  unfold first_seen. split; [apply NoDup_remove_dups|].
  split; intros x; rewrite elem_of_remove_dups; done.
Qed.

Lemma last_seen_spec (labels : list string) :
  Detector.SetIteration labels (last_seen labels).
Proof.
  unfold last_seen. split; [rewrite reverse_Permutation; apply NoDup_remove_dups|].
  split; intros x; rewrite elem_of_reverse, elem_of_remove_dups; done.
Qed.

(** A runtime whose uploads are given by the logits of their frames: an
    image is an upload of one frame, a video the sequence of its frames;
    [iteration] is the order in which sets of labels are iterated. *)
Definition runtime (iteration : list string -> list string)
    (iteration_spec : forall labels, Detector.SetIteration labels (iteration labels))
  : Detector.Runtime := {|
  Detector.Upload := list (list R);
  Detector.Img := list R;
  Detector.BgrFrame := list R;
  Detector.id2label := <[0%nat := "Fake"]> (<[1%nat := "Real"]> ∅);
  Detector.image_open := fun file =>
    match file with
    | [image] => Ok image
    | _ => Raise (Exn "UnidentifiedImageError" "cannot identify image file")
    end;
  Detector.logits_of := fun image => Ok image;
  Detector.video_capture := fun file =>
    Ok {| Detector.isOpened := true; Detector.stream := file |};
  Detector.frame_image := fun frame => Ok frame;
  Detector.set_order := iteration;
  Detector.set_order_spec := iteration_spec
|}.

Definition runtime_first_seen : Detector.Runtime := runtime first_seen first_seen_spec.
Definition runtime_last_seen : Detector.Runtime := runtime last_seen last_seen_spec.

(** Two of three frames say "A". *)
Definition majority_input : list (string * R) :=
  [("A", 9 / 10); ("B", 8 / 10); ("A", 7 / 10)]%R.

(** Two frames say "A", two say "B". *)
Definition tie_input : list (string * R) :=
  [("A", 9 / 10); ("B", 8 / 10); ("A", 7 / 10); ("B", 95 / 100)]%R.

(** A response body that carries the completion [text]. *)
Definition completion (text : value) : value :=
  VDict (<["choices" :=
             VList [VDict (<["message" := VDict (<["content" := text]> ∅)]> ∅)]]> ∅).

(** A service that answers every request with the given response. *)
Definition service (response : result LlmService.Response) : LlmService.Env := {|
  LlmService.API_KEY := None;
  LlmService.API_URL := "https://api.gmi.cloud/v1/chat/completions";
  LlmService.requests_post := fun _ _ _ => response;
  LlmService.format_1f := fun _ => "0.0";
  LlmService.str := fun v => match v with VStr s => s | _ => "None" end
|}.

(** HTTP 500 with a body that is not JSON. *)
Definition service_500 : LlmService.Env :=
  service (Ok {| LlmService.status_code := 500;
                 LlmService.json := Raise (Exn "JSONDecodeError" "Expecting value") |}).

(** HTTP 300 (Multiple Choices) with a well-formed completion in the
    body. *)
Definition service_300 : LlmService.Env :=
  service (Ok {| LlmService.status_code := 300;
                 LlmService.json := Ok (completion (VStr "served text")) |}).

(** HTTP 200 with a well-formed completion in the body. *)
Definition service_200 : LlmService.Env :=
  service (Ok {| LlmService.status_code := 200;
                 LlmService.json := Ok (completion (VStr "served text")) |}).

(** A service that answers with the content of the last message of the
    request. *)
Definition last_content (body : gmap string value) : value :=
  match body !! "messages" with
  | Some (VList messages) =>
      match last messages with
      | Some (VDict m) => default VNone (m !! "content")
      | _ => VNone
      end
  | _ => VNone
  end.

Definition service_echo : LlmService.Env := {|
  LlmService.API_KEY := None;
  LlmService.API_URL := "https://api.gmi.cloud/v1/chat/completions";
  LlmService.requests_post := fun _ _ body =>
    Ok {| LlmService.status_code := 200;
          LlmService.json := Ok (completion (last_content body)) |};
  LlmService.format_1f := fun _ => "0.0";
  LlmService.str := fun v => match v with VStr s => s | _ => "None" end
|}.

(** A service that knows one key: it answers 401 to the header that a
    process without key sends, and 200 to any other. *)
Definition service_keyed : LlmService.Env := {|
  LlmService.API_KEY := None;
  LlmService.API_URL := "https://api.gmi.cloud/v1/chat/completions";
  LlmService.requests_post := fun _ headers _ =>
    if decide (headers !! "Authorization" = Some "Bearer None")
    then Ok {| LlmService.status_code := 401;
               LlmService.json := Raise (Exn "JSONDecodeError" "Expecting value") |}
    else Ok {| LlmService.status_code := 200;
               LlmService.json := Ok (completion (VStr "served text")) |};
  LlmService.format_1f := fun _ => "0.0";
  LlmService.str := fun v => match v with VStr s => s | _ => "None" end
|}.

(** HTTP 200 whose completion is JSON [null]. *)
Definition service_null : LlmService.Env :=
  service (Ok {| LlmService.status_code := 200;
                 LlmService.json := Ok (completion VNone) |}).

End Examples.

(** * Properties *)

(** ** The Python operations *)

Section PyFacts.
Context {A B : Type}.

Lemma getitem_nat (l : list A) (i : nat) (x : A) :
  l !! i = Some x -> getitem l (Z.of_nat i) = Ok x.
Proof.
  intros Hx. pose proof (lookup_lt_Some _ _ _ Hx) as Hlt.
  unfold getitem.
  destruct (Z.ltb_spec (Z.of_nat i) 0) as [?|_]; [lia|].
  destruct (Z.leb_spec 0 (Z.of_nat i)) as [_|?]; [|lia].
  destruct (Z.ltb_spec (Z.of_nat i) (Z.of_nat (length l))) as [_|?]; [|lia].
  simpl. by rewrite Nat2Z.id, Hx.
Qed.

Lemma comprehension_ok (f : A -> result B) (g : A -> B) (l : list A) :
  Forall (fun x => f x = Ok (g x)) l -> comprehension f l = Ok (g <$> l).
Proof.
  induction 1 as [|x l Hx _ IH]; simpl; [done|].
  by rewrite Hx; simpl; rewrite IH.
Qed.

End PyFacts.

Lemma range_length (n : nat) : length (range n) = n.
Proof. unfold range. by rewrite length_fmap, length_seq. Qed.

Lemma range_lookup (n i : nat) : (i < n)%nat -> range n !! i = Some (Z.of_nat i).
Proof.
  intros Hi. unfold range. rewrite list_lookup_fmap, lookup_seq_lt by done.
  done.
Qed.

(** ** Rounding errors in the samples of [np.linspace] *)

Module RoundingFacts.
#[local] Open Scope R_scope.

Section Rounding.
Variable fp : Rounding.
Local Abbreviation u := (eps fp).

Lemma fl_zero : fl fp 0 = 0.
Proof. apply (fl_integer fp 0). simpl. lia. Qed.

Lemma fl_bounds (x : R) : 0 <= x -> x * (1 - u) <= fl fp x <= x * (1 + u).
Proof.
  intros Hx. pose proof (fl_error fp x) as H.
  rewrite (Rabs_right x) in H by lra.
  unfold Rabs in H. destruct (Rcase_abs (fl fp x - x)); lra.
Qed.

Lemma to_float_exact (n : Z) : (Z.abs n <= 2 ^ 53)%Z -> to_float fp n = IZR n.
Proof. apply fl_integer. Qed.

(** The samples on [[0, D]] with [d] intervals, [d + 1 <= D], when
    [eps] is small against the number of samples. *)
Section Samples.
Variables D d : R.
Hypothesis Hd : 1 <= d.
Hypothesis HD : d + 1 <= D.
Hypothesis Hu : 2 * (d + 1) * (d + 1) * u <= 1.

Let s := fl fp (D / d).

Lemma eps_small : u <= 1 / 8.
Proof. pose proof (eps_nonneg fp). nra. Qed.

Lemma step_lower : (d + 1) * (1 - u) <= s * d.
Proof.
  pose proof (eps_nonneg fp) as H0. pose proof eps_small as H8.
  assert (0 < D / d) as Hq by (apply Rdiv_lt_0_compat; lra).
  destruct (fl_bounds (D / d)) as [Hlo _]; [lra|]. fold s in Hlo.
  apply Rmult_le_compat_r with (r := d) in Hlo; [|lra].
  replace (D / d * (1 - u) * d) with (D * (1 - u)) in Hlo by (field; lra).
  nra.
Qed.

Lemma step_upper : s * d <= D * (1 + u).
Proof.
  assert (0 < D / d) as Hq by (apply Rdiv_lt_0_compat; lra).
  destruct (fl_bounds (D / d)) as [_ Hhi]; [lra|]. fold s in Hhi.
  apply Rmult_le_compat_r with (r := d) in Hhi; [|lra].
  replace (D / d * (1 + u) * d) with (D * (1 + u)) in Hhi by (field; lra).
  exact Hhi.
Qed.

Lemma step_pos : 0 < s.
Proof.
  pose proof step_lower. pose proof eps_small. pose proof (eps_nonneg fp). nra.
Qed.

(** Two samples are at least one apart. *)
Lemma sample_gap (i j : R) :
  0 <= i -> i + 1 <= j -> j <= d - 1 ->
  fl fp (i * s) + 1 <= fl fp (j * s).
Proof.
  intros Hi Hij Hj.
  pose proof (eps_nonneg fp) as H0. pose proof eps_small as H8.
  pose proof step_pos as Hs. pose proof step_lower as Hlo.
  destruct (fl_bounds (i * s)) as [_ Hyi]; [nra|].
  destruct (fl_bounds (j * s)) as [Hyj _]; [nra|].
  assert (s * (1 - 2 * d * u) <= j * s * (1 - u) - i * s * (1 + u)) as H1.
  { assert (1 - 2 * d * u <= (j - i) - (j + i) * u) by nra. nra. }
  assert (d <= s * d * (1 - 2 * d * u)) as H2.
  { assert (0 <= 1 - 2 * d * u) by nra.
    assert ((d + 1) * (1 - u) * (1 - 2 * d * u) <= s * d * (1 - 2 * d * u)) by nra.
    assert (d <= (d + 1) * (1 - u) * (1 - 2 * d * u)); [|lra].
    assert (1 - u - 2 * d * u <= (1 - u) * (1 - 2 * d * u)) by nra.
    assert (0 <= (d + 1) * u) as Hdu by nra.
    assert ((d + 1) * u * (2 * d + 1) <= (d + 1) * u * (2 * (d + 1))) as Hm
      by (apply Rmult_le_compat_l; lra).
    assert (d <= (d + 1) * (1 - u - 2 * d * u)) by lra.
    nra. }
  assert (1 <= s * (1 - 2 * d * u)) by nra.
  lra.
Qed.

(** Every sample before the last stays below [D]. *)
Lemma sample_below_stop (i : R) :
  0 <= i -> i <= d - 1 -> fl fp (i * s) < D.
Proof.
  intros Hi Hid.
  pose proof (eps_nonneg fp) as H0. pose proof eps_small as H8.
  pose proof step_pos as Hs. pose proof step_upper as Hup.
  destruct (fl_bounds (i * s)) as [_ Hy]; [nra|].
  assert (0 <= s * (1 + u)) as Ha by nra.
  assert (i * (s * (1 + u)) <= (d - 1) * (s * (1 + u))) as H1
    by (apply Rmult_le_compat_r; lra).
  assert (0 <= (d - 1) * (1 + u)) as Hb by nra.
  assert ((d - 1) * (1 + u) * (s * d) <= (d - 1) * (1 + u) * (D * (1 + u))) as H2
    by (apply Rmult_le_compat_l; lra).
  assert ((d - 1) * ((1 + u) * (1 + u)) < d) as H3.
  { assert ((1 + u) * (1 + u) <= 1 + 3 * u) as Hsq by nra.
    assert ((d - 1) * ((1 + u) * (1 + u)) <= (d - 1) * (1 + 3 * u))
      by (apply Rmult_le_compat_l; lra).
    assert (3 * (d - 1) * u < 1).
    { assert (0 <= (d + 1) * u) by nra.
      assert ((d - 1) * u <= (d + 1) * u) by nra.
      assert (2 * ((d + 1) * u) <= (d + 1) * ((d + 1) * u))
        by (apply Rmult_le_compat_r; lra).
      lra. }
    lra. }
  assert ((d - 1) * ((1 + u) * (1 + u)) * D < d * D) as H4
    by (apply Rmult_lt_compat_r; lra).
  assert ((d - 1) * (s * (1 + u)) * d < D * d) as H5 by lra.
  assert ((d - 1) * (s * (1 + u)) < D) as H6
    by (apply Rmult_lt_reg_r with d; lra).
  lra.
Qed.

Lemma sample_nonneg (i : R) : 0 <= i -> 0 <= fl fp (i * s).
Proof.
  intros Hi. pose proof step_pos. pose proof eps_small. pose proof (eps_nonneg fp).
  assert (0 <= i * s) by (apply Rmult_le_pos; lra).
  destruct (fl_bounds (i * s)) as [Hlo _]; [assumption|].
  assert (0 <= i * s * (1 - u)) by (apply Rmult_le_pos; lra).
  lra.
Qed.

(** A sample is the linear interpolation [i * D / d] up to a relative
    error of [3 * eps]. *)
Lemma sample_accuracy (i : R) :
  0 <= i -> Rabs (fl fp (i * s) - i * (D / d)) <= 3 * u * (i * (D / d)).
Proof.
  intros Hi.
  pose proof (eps_nonneg fp) as H0. pose proof eps_small as H8.
  pose proof step_pos as Hs.
  assert (0 < D / d) as Hq by (apply Rdiv_lt_0_compat; lra).
  destruct (fl_bounds (D / d)) as [Hslo Hshi]; [lra|]. fold s in Hslo, Hshi.
  assert (0 <= i * s) as His by (apply Rmult_le_pos; lra).
  destruct (fl_bounds (i * s)) as [Hlo Hhi]; [assumption|].
  assert (0 <= i * (D / d)) as Hq' by (apply Rmult_le_pos; lra).
  assert (i * (D / d * (1 - u)) <= i * s <= i * (D / d * (1 + u))) as [Ha Hb]
    by (split; apply Rmult_le_compat_l; lra).
  assert (0 <= i * (D / d) * u) as Hc by (apply Rmult_le_pos; lra).
  assert (i * s * u <= i * (D / d * (1 + u)) * u) as Hd'
    by (apply Rmult_le_compat_r; lra).
  assert (i * (D / d) * u * u <= i * (D / d) * u * 1) as He
    by (apply Rmult_le_compat_l; lra).
  apply Rabs_le. split; lra.
Qed.

End Samples.
End Rounding.

End RoundingFacts.

(** ** The frame sampler *)

Module SamplerFacts.
Import DeepfakeVideos.

Lemma while_append_replicate (indices : list Z) (num_samples last : Z) :
  while_append indices num_samples last
  = indices ++ replicate (Z.to_nat (num_samples - Z.of_nat (length indices))) last.
Proof.
  funelim (while_append indices num_samples last).
  - rewrite H. rewrite <- app_assoc. f_equal.
    rewrite length_app; simpl.
    replace (Z.to_nat (num_samples - Z.of_nat (length indices)))
      with (S (Z.to_nat (num_samples - Z.of_nat (length indices + 1)))) by lia.
    done.
  - replace (Z.to_nat (num_samples - Z.of_nat (length indices))) with 0%nat by lia.
    simpl. by rewrite app_nil_r.
Qed.

Lemma subsample_indices_short (fp : Rounding) (total_frames : nat) (num_samples : Z) :
  Z.of_nat total_frames <= num_samples ->
  subsample_indices fp total_frames num_samples
  = Ok (range total_frames
        ++ replicate (Z.to_nat num_samples - total_frames)
             (Z.of_nat total_frames - 1)).
Proof.
  intros Hle. unfold subsample_indices.
  destruct (Z.leb_spec (Z.of_nat total_frames) num_samples); [|lia].
  rewrite while_append_replicate, range_length.
  do 3 f_equal. lia.
Qed.

Lemma lookup_range_frames {A : Type} (frames : list A) (d : A) :
  (fun i => default d (frames !! Z.to_nat i)) <$> range (length frames) = frames.
Proof.
  apply list_eq; intros i. rewrite list_lookup_fmap.
  destruct (decide (i < length frames)%nat) as [Hi|Hi].
  - rewrite range_lookup by done. simpl. rewrite Nat2Z.id.
    destruct (lookup_lt_is_Some_2 frames i Hi) as [x Hx]. by rewrite Hx.
  - rewrite !lookup_ge_None_2; [done|lia|rewrite range_length; lia].
Qed.

Lemma subsample_indices_long (fp : Rounding) (total_frames : nat) (num_samples : Z) :
  0 <= num_samples < Z.of_nat total_frames ->
  subsample_indices fp total_frames num_samples
  = Ok ((fun i => Zfloor (linspace_sample fp 0 (Z.of_nat total_frames - 1)
                            num_samples i))
        <$> range (Z.to_nat num_samples)).
Proof.
  intros [H0 Hlt]. unfold subsample_indices, linspace_int.
  destruct (Z.leb_spec (Z.of_nat total_frames) num_samples); [lia|].
  by destruct (Z.ltb_spec num_samples 0); [lia|].
Qed.

(** The samples of [np.linspace(0, F - 1, N)] for [F > N]. *)
Section LongVideo.
Variable fp : Rounding.
Variables F N : Z.
Hypothesis HN : N < F.
Hypothesis HF : F <= 2 ^ 53.

Lemma sample_single : N = 1 -> linspace_sample fp 0 (F - 1) N 0 = 0%R.
Proof.
  intros ->. unfold linspace_sample. simpl.
  rewrite (RoundingFacts.to_float_exact fp 0) by (simpl; lia).
  by rewrite Rmult_0_l, RoundingFacts.fl_zero, Rplus_0_r, RoundingFacts.fl_zero.
Qed.

Lemma sample_last : 2 <= N -> linspace_sample fp 0 (F - 1) N (N - 1) = IZR (F - 1).
Proof.
  intros H2. unfold linspace_sample.
  destruct (Z.ltb_spec 1 N); [|lia]. rewrite Z.eqb_refl. simpl.
  apply RoundingFacts.to_float_exact. lia.
Qed.

Hypothesis H2 : 2 <= N.
Hypothesis Heps : (2 * IZR N * IZR N * eps fp <= 1)%R.

Let D : R := IZR (F - 1).
Let d : R := IZR (N - 1).

Lemma intervals_ge_1 : (1 <= d)%R.
Proof. unfold d. apply IZR_le. lia. Qed.

Lemma stop_ge : (d + 1 <= D)%R.
Proof. unfold d, D. rewrite <- plus_IZR. apply IZR_le. lia. Qed.

Lemma eps_against_samples : (2 * (d + 1) * (d + 1) * eps fp <= 1)%R.
Proof.
  unfold d. rewrite <- plus_IZR. by replace (N - 1 + 1) with N by lia.
Qed.

Lemma sample_interior (i : Z) :
  0 <= i < N - 1 ->
  linspace_sample fp 0 (F - 1) N i = fl fp (IZR i * fl fp (D / d)).
Proof.
  intros Hi. unfold linspace_sample.
  rewrite !RoundingFacts.to_float_exact by lia.
  rewrite Rminus_0_r, (fl_integer fp (F - 1)) by lia.
  destruct (Z.ltb_spec 0 (N - 1)); [|lia].
  fold D d.
  pose proof (RoundingFacts.step_pos fp D d intervals_ge_1 stop_ge
                eps_against_samples) as Hs.
  destruct (Req_dec_T (fl fp (D / d)) 0) as [E|_]; [lra|].
  rewrite Rplus_0_r, fl_idempotent.
  destruct (Z.eqb_spec i (N - 1)); [lia|]. by rewrite andb_false_r.
Qed.

Lemma sample_floor_lt (i j : Z) :
  0 <= i -> i < j -> j < N ->
  Zfloor (linspace_sample fp 0 (F - 1) N i)
  < Zfloor (linspace_sample fp 0 (F - 1) N j).
Proof.
  intros Hi Hij Hj. rewrite (sample_interior i) by lia.
  destruct (decide (j = N - 1)) as [->|Hne].
  - rewrite sample_last, ZfloorZ by done.
    apply lt_IZR.
    eapply Rle_lt_trans; [apply Zfloor_bound|].
    apply (RoundingFacts.sample_below_stop fp D d intervals_ge_1 stop_ge
             eps_against_samples).
    + apply IZR_le; lia.
    + unfold d. rewrite <- minus_IZR. apply IZR_le; lia.
  - rewrite (sample_interior j) by lia.
    assert (Zfloor (fl fp (IZR i * fl fp (D / d))) + 1
            <= Zfloor (fl fp (IZR j * fl fp (D / d)))); [|lia].
    rewrite <- Zfloor_addz. apply Zfloor_le.
    apply (RoundingFacts.sample_gap fp D d intervals_ge_1 stop_ge
             eps_against_samples).
    + apply IZR_le; lia.
    + rewrite <- plus_IZR. apply IZR_le; lia.
    + unfold d. rewrite <- minus_IZR. apply IZR_le; lia.
Qed.

Lemma sample_floor_nonneg (i : Z) :
  0 <= i < N -> 0 <= Zfloor (linspace_sample fp 0 (F - 1) N i).
Proof.
  intros Hi. destruct (decide (i = N - 1)) as [->|Hne].
  - rewrite sample_last, ZfloorZ by done. lia.
  - rewrite sample_interior by lia. apply Zfloor_lub.
    apply (RoundingFacts.sample_nonneg fp D d intervals_ge_1 stop_ge
             eps_against_samples).
    apply IZR_le; lia.
Qed.

Lemma sample_first : linspace_sample fp 0 (F - 1) N 0 = 0%R.
Proof.
  rewrite sample_interior by lia. by rewrite Rmult_0_l, RoundingFacts.fl_zero.
Qed.

(** Each sample is the linear interpolation between 0 and [F - 1] up to
    a relative error of [3 * eps]. *)
Lemma sample_interpolates (i : Z) :
  0 <= i < N ->
  (Rabs (linspace_sample fp 0 (F - 1) N i - IZR i * (D / d))
   <= 3 * eps fp * (IZR i * (D / d)))%R.
Proof.
  intros Hi. destruct (decide (i = N - 1)) as [->|Hne].
  - rewrite sample_last by done. fold D d.
    pose proof intervals_ge_1. pose proof stop_ge. pose proof (eps_nonneg fp).
    replace (d * (D / d))%R with D by (field; lra).
    rewrite Rminus_diag, Rabs_R0.
    apply Rmult_le_pos; [lra|]. lra.
  - rewrite sample_interior by lia.
    apply (RoundingFacts.sample_accuracy fp D d intervals_ge_1 stop_ge
             eps_against_samples).
    apply IZR_le; lia.
Qed.

End LongVideo.

(** The sampler on an empty frame list, which its caller never passes:
    with one requested sample the padding loop appends the index [-1],
    and [frames[-1]] raises [IndexError]. *)
Lemma subsample_empty_raises :
  uniform_temporal_subsample Examples.exact_arithmetic (@nil nat) 1
  = Raise IndexError
  /\ ~ exists out : list nat,
        uniform_temporal_subsample Examples.exact_arithmetic (@nil nat) 1 = Ok out
        /\ Z.of_nat (length out) = 1.
Proof.
  assert (uniform_temporal_subsample Examples.exact_arithmetic (@nil nat) 1
          = Raise IndexError) as E.
  { unfold uniform_temporal_subsample. simpl length.
    rewrite subsample_indices_short by done. reflexivity. }
  split; [exact E|]. intros (out & Hout & _). congruence.
Qed.

(** C3: for every frame list of length [F <= N] that holds a frame,
    [uniform_temporal_subsample frames N] returns a list of length
    exactly [N] whose first [F] elements are the input frames in order
    and whose elements at positions [F..N-1] all equal the last input
    frame, frame [F-1].  A video without any frame has no frame [F-1]
    and never reaches the sampler: [preprocess_video] raises its
    [ValueError] before the call. *)
Theorem subsample_short_pads_last_frame {A : Type} (fp : Rounding)
    (frames : list A) (N : Z) :
  (1 <= length frames)%nat ->
  Z.of_nat (length frames) <= N ->
  (exists (out : list A) (last_frame : A),
     uniform_temporal_subsample fp frames N = Ok out
     /\ Z.of_nat (length out) = N
     /\ take (length frames) out = frames
     /\ frames !! (length frames - 1)%nat = Some last_frame
     /\ forall i : nat,
          (length frames <= i)%nat -> Z.of_nat i < N -> out !! i = Some last_frame)
  /\ forall (self : DeepfakeDetector) (video_path : string),
       capture self video_path = [] ->
       exists e : exn,
         preprocess_video self video_path = Raise e
         /\ exn_class e = "ValueError"
         /\ exn_str e = "Could not read any frames from " +:+ video_path.
Proof.
  intros Hne Hle. split.
  2:{ intros self video_path Hcap. eexists.
      split; [unfold preprocess_video; rewrite Hcap; reflexivity|].
      split; reflexivity. }
  destruct (lookup_lt_is_Some_2 frames (length frames - 1)%nat) as [lf Hlf]; [lia|].
  set (pad := (Z.to_nat N - length frames)%nat).
  exists (frames ++ replicate pad lf), lf.
  assert (uniform_temporal_subsample fp frames N
          = Ok (frames ++ replicate pad lf)) as E.
  { unfold uniform_temporal_subsample.
    rewrite subsample_indices_short by done. simpl.
    rewrite (comprehension_ok _ (fun i => default lf (frames !! Z.to_nat i))).
    - rewrite fmap_app, lookup_range_frames, fmap_replicate.
      replace (Z.to_nat (Z.of_nat (length frames) - 1)) with (length frames - 1)%nat by lia.
      by rewrite Hlf.
    - apply Forall_app; split.
      + apply Forall_forall. intros k Hk.
        apply list_elem_of_lookup in Hk as [j Hj].
        pose proof (lookup_lt_Some _ _ _ Hj) as Hlt. rewrite range_length in Hlt.
        rewrite range_lookup in Hj by done. injection Hj as <-.
        rewrite Nat2Z.id.
        destruct (lookup_lt_is_Some_2 frames j Hlt) as [x Hx].
        rewrite Hx. by apply getitem_nat.
      + apply Forall_replicate.
        replace (Z.of_nat (length frames) - 1) with (Z.of_nat (length frames - 1)) by lia.
        rewrite Nat2Z.id, Hlf. by apply getitem_nat. }
  split; [exact E|]. split; [|split; [|split; [exact Hlf|]]].
  - rewrite length_app, length_replicate. lia.
  - by rewrite take_app_length.
  - intros i Hi HiN. rewrite lookup_app_r by done.
    apply lookup_replicate_2. lia.
Qed.

(** A 5-frame video padded to 10 samples (the end-to-end example of the
    specification). *)
Lemma subsample_short_pads_last_frame_witness :
  (exists (out : list nat) (last_frame : nat),
     uniform_temporal_subsample Examples.exact_arithmetic [0; 1; 2; 3; 4]%nat 10
     = Ok out
     /\ Z.of_nat (length out) = 10
     /\ take 5 out = [0; 1; 2; 3; 4]%nat
     /\ [0; 1; 2; 3; 4]%nat !! 4%nat = Some last_frame
     /\ forall i : nat, (5 <= i)%nat -> Z.of_nat i < 10 -> out !! i = Some last_frame)
  /\ forall (self : DeepfakeDetector) (video_path : string),
       capture self video_path = [] ->
       exists e : exn,
         preprocess_video self video_path = Raise e
         /\ exn_class e = "ValueError"
         /\ exn_str e = "Could not read any frames from " +:+ video_path.
Proof.
  apply (subsample_short_pads_last_frame Examples.exact_arithmetic
           [0; 1; 2; 3; 4]%nat 10); simpl; lia.
Defined.

Example subsample_five_to_ten (fp : Rounding) :
  uniform_temporal_subsample fp [0; 1; 2; 3; 4]%nat 10
  = Ok [0; 1; 2; 3; 4; 4; 4; 4; 4; 4]%nat.
Proof.
  unfold uniform_temporal_subsample. simpl length.
  rewrite subsample_indices_short by done. reflexivity.
Qed.

(** With one requested sample, [np.linspace(0, F - 1, 1, dtype=int)] is
    [[0]], whatever the rounding. *)
Lemma subsample_indices_single (fp : Rounding) (total_frames : nat) :
  (2 <= total_frames)%nat ->
  Z.of_nat total_frames <= 2 ^ 53 ->
  subsample_indices fp total_frames 1 = Ok [0].
Proof.
  intros H2 HF. rewrite subsample_indices_long by lia.
  change (range (Z.to_nat 1)) with [0]. simpl.
  rewrite (sample_single fp (Z.of_nat total_frames) 1) by lia.
  by rewrite ZfloorZ.
Qed.

(** C4 (as stated, at two frames and one requested sample): the only
    index is 0, so the only frame taken is frame 0 and the last index
    [F - 1 = 1] is not among the indices. *)
Lemma subsample_single_sample_misses_last :
  subsample_indices Examples.exact_arithmetic (length ["f0"; "f1"]) 1 = Ok [0]
  /\ uniform_temporal_subsample Examples.exact_arithmetic ["f0"; "f1"] 1
     = Ok ["f0"]
  /\ (Z.of_nat (length ["f0"; "f1"]) - 1) ∉ [0].
Proof.
  assert (subsample_indices Examples.exact_arithmetic (length ["f0"; "f1"]) 1
          = Ok [0]) as E by (apply subsample_indices_single; simpl; lia).
  split; [exact E|]. split.
  - unfold uniform_temporal_subsample. rewrite E. reflexivity.
  - simpl. intros Hin. apply list_elem_of_In in Hin. simpl in Hin. lia.
Qed.

(** C4 (amended): for every frame list of length [F > N >= 0] (with
    [F <= 2^53] and [2 N^2 eps <= 1], the sizes for which float64
    arithmetic is exact on the integers and keeps the samples apart),
    [uniform_temporal_subsample frames N] takes the frames at exactly
    [N] indices that are strictly increasing (so non-decreasing and
    without duplicates) and lie in [[0, F-1]]; index 0 is the first
    when [N >= 1]; and when [N >= 2] the last index is [F-1] and the
    i-th index is the floor of a sample that equals the linear
    interpolation [i * (F-1) / (N-1)] up to a relative error of
    [3 eps]. *)
Theorem subsample_long_uniform_indices {A : Type} (fp : Rounding)
    (frames : list A) (N : Z) :
  0 <= N ->
  N < Z.of_nat (length frames) ->
  Z.of_nat (length frames) <= 2 ^ 53 ->
  (2 * IZR N * IZR N * eps fp <= 1)%R ->
  exists (idx : list Z) (out : list A),
    subsample_indices fp (length frames) N = Ok idx
    /\ uniform_temporal_subsample fp frames N = Ok out
    /\ Forall2 (fun k x => 0 <= k /\ frames !! Z.to_nat k = Some x) idx out
    /\ Z.of_nat (length idx) = N
    /\ (forall (i j : nat) (a b : Z),
          (i < j)%nat -> idx !! i = Some a -> idx !! j = Some b -> a < b)
    /\ (forall (i : nat) (a : Z),
          idx !! i = Some a -> 0 <= a <= Z.of_nat (length frames) - 1)
    /\ (1 <= N -> idx !! 0%nat = Some 0)
    /\ (2 <= N -> last idx = Some (Z.of_nat (length frames) - 1))
    /\ (2 <= N -> forall i : nat, Z.of_nat i < N ->
          exists y : R,
            idx !! i = Some (Zfloor y)
            /\ (Rabs (y - IZR (Z.of_nat i)
                          * (IZR (Z.of_nat (length frames) - 1) / IZR (N - 1)))
                <= 3 * eps fp
                   * (IZR (Z.of_nat i)
                      * (IZR (Z.of_nat (length frames) - 1) / IZR (N - 1))))%R).
Proof.
  intros H0 HN HF Heps. set (F := Z.of_nat (length frames)) in *.
  set (sample := fun i => Zfloor (linspace_sample fp 0 (F - 1) N i)).
  set (idx := sample <$> range (Z.to_nat N)).
  assert (Hidx : subsample_indices fp (length frames) N = Ok idx)
    by (apply subsample_indices_long; lia).
  assert (Hlook : forall (i : nat) (a : Z), idx !! i = Some a ->
            Z.of_nat i < N /\ a = sample (Z.of_nat i)).
  { intros i a Hi. unfold idx in Hi. rewrite list_lookup_fmap in Hi.
    destruct (range (Z.to_nat N) !! i) as [k|] eqn:Hk; [|done].
    pose proof (lookup_lt_Some _ _ _ Hk) as Hlt. rewrite range_length in Hlt.
    rewrite range_lookup in Hk by done. injection Hk as <-.
    injection Hi as <-. split; [lia|done]. }
  assert (Hget : forall i : nat, Z.of_nat i < N ->
            idx !! i = Some (sample (Z.of_nat i))).
  { intros i Hi. unfold idx. rewrite list_lookup_fmap, range_lookup by lia. done. }
  assert (Hfirst : 1 <= N -> sample 0 = 0).
  { intros H1. unfold sample. destruct (decide (N = 1)) as [E|E].
    - rewrite (sample_single fp F N) by done. apply ZfloorZ.
    - rewrite (sample_first fp F N) by (done || lia). apply ZfloorZ. }
  assert (Hlast : 2 <= N -> sample (N - 1) = F - 1).
  { intros H2. unfold sample. rewrite (sample_last fp F N) by done. apply ZfloorZ. }
  assert (Hlt : forall i j : Z, 0 <= i -> i < j -> j < N -> sample i < sample j).
  { intros i j Hi Hij Hj. apply (sample_floor_lt fp F N); (done || lia). }
  assert (Hbound : forall (i : nat) (a : Z), idx !! i = Some a -> 0 <= a <= F - 1).
  { intros i a Hi. apply Hlook in Hi as [Hi ->].
    destruct (decide (2 <= N)) as [H2|H2].
    - split.
      + apply (sample_floor_nonneg fp F N); (done || lia).
      + destruct (decide (Z.of_nat i = N - 1)) as [->|Hne]; [by rewrite Hlast|].
        specialize (Hlt (Z.of_nat i) (N - 1)). rewrite Hlast in Hlt by done. lia.
    - assert (N = 1) as E by lia. assert (i = 0%nat) as -> by lia.
      change (Z.of_nat 0) with 0. rewrite Hfirst by lia. lia. }
  assert (Hout : exists out, comprehension (getitem frames) idx = Ok out
            /\ Forall2 (fun k x => 0 <= k /\ frames !! Z.to_nat k = Some x) idx out).
  { assert (Hall : Forall (fun k => 0 <= k <= F - 1) idx).
    { apply Forall_forall. intros k Hk.
      apply list_elem_of_lookup in Hk as [i Hi]. eauto. }
    clearbody idx. clear -Hall. induction Hall as [|k idx Hk _ (out & Ho & Hf)].
    - exists []. by split; [|constructor].
    - destruct (lookup_lt_is_Some_2 frames (Z.to_nat k)) as [x Hx]; [unfold F in Hk; lia|].
      exists (x :: out). split.
      + simpl. rewrite <- (Z2Nat.id k) at 1 by lia.
        rewrite (getitem_nat _ _ _ Hx). simpl. by rewrite Ho.
      + constructor; [split; [lia|done]|done]. }
  destruct Hout as (out & Hout & Hsel).
  exists idx, out. split; [done|]. split.
  { unfold uniform_temporal_subsample. by rewrite Hidx. }
  split; [done|]. split.
  { unfold idx. rewrite length_fmap, range_length. lia. }
  split.
  { intros i j a b Hij Hi Hj.
    apply Hlook in Hi as [Hi ->]. apply Hlook in Hj as [Hj ->].
    apply Hlt; lia. }
  split; [done|]. split.
  { intros H1. rewrite (Hget 0%nat) by lia. f_equal. by apply Hfirst. }
  split.
  { intros H2. rewrite last_lookup.
    replace (pred (length idx)) with (Z.to_nat (N - 1)).
    2:{ unfold idx. rewrite length_fmap, range_length. lia. }
    rewrite Hget by lia. f_equal. rewrite Z2Nat.id by lia. by apply Hlast. }
  intros H2 i Hi. exists (linspace_sample fp 0 (F - 1) N (Z.of_nat i)).
  split; [by apply Hget|].
  apply (sample_interpolates fp F N); (done || lia).
Qed.

(** Five frames sampled down to three. *)
Lemma subsample_long_uniform_indices_witness :
  exists (idx : list Z) (out : list string),
    subsample_indices Examples.exact_arithmetic 5 3 = Ok idx
    /\ uniform_temporal_subsample Examples.exact_arithmetic
         ["a"; "b"; "c"; "d"; "e"] 3 = Ok out
    /\ Forall2 (fun k x => 0 <= k
                 /\ ["a"; "b"; "c"; "d"; "e"] !! Z.to_nat k = Some x) idx out
    /\ Z.of_nat (length idx) = 3
    /\ (forall (i j : nat) (a b : Z),
          (i < j)%nat -> idx !! i = Some a -> idx !! j = Some b -> a < b)
    /\ (forall (i : nat) (a : Z), idx !! i = Some a -> 0 <= a <= 5 - 1)
    /\ (1 <= 3 -> idx !! 0%nat = Some 0)
    /\ (2 <= 3 -> last idx = Some (5 - 1))
    /\ (2 <= 3 -> forall i : nat, Z.of_nat i < 3 ->
          exists y : R,
            idx !! i = Some (Zfloor y)
            /\ (Rabs (y - IZR (Z.of_nat i) * (IZR (5 - 1) / IZR (3 - 1)))
                <= 3 * 0 * (IZR (Z.of_nat i) * (IZR (5 - 1) / IZR (3 - 1))))%R).
Proof.
  apply (subsample_long_uniform_indices Examples.exact_arithmetic
           ["a"; "b"; "c"; "d"; "e"] 3); simpl; (lia || lra).
Defined.

(** In exact arithmetic the floored samples are the integer quotients
    [i * (F-1) / (N-1)].  (binary64 can fall one short of them where
    the quotient is an integer: with [F = 123] and [N = 15] the product
    of 7 and the rounded step 122/14 lies just below 61.) *)
Lemma Zfloor_div (a b : Z) : 0 < b -> Zfloor (IZR a / IZR b) = a / b.
Proof.
  intros Hb. apply Zfloor_eq.
  pose proof (Z.div_mod a b ltac:(lia)) as Hdiv.
  pose proof (Z.mod_pos_bound a b Hb) as Hmod.
  assert (0 < IZR b)%R as Hb' by (apply IZR_lt; lia).
  assert (IZR a = IZR b * IZR (a / b) + IZR (a mod b))%R as Ha
    by (rewrite <- mult_IZR, <- plus_IZR; f_equal; lia).
  assert (0 <= IZR (a mod b) < IZR b)%R as [Hm0 Hm1]
    by (split; [apply IZR_le|apply IZR_lt]; lia).
  assert (IZR a / IZR b = IZR (a / b) + IZR (a mod b) / IZR b)%R as ->
    by (rewrite Ha; field; lra).
  assert (0 <= IZR (a mod b) / IZR b < 1)%R as [? ?].
  { split.
    - apply Rmult_le_pos; [lra|]. left. by apply Rinv_0_lt_compat.
    - apply Rmult_lt_reg_r with (IZR b); [done|].
      unfold Rdiv. rewrite Rmult_assoc, Rinv_l by lra. lra. }
  lra.
Qed.

Lemma exact_indices (total_frames : nat) (N : Z) :
  2 <= N ->
  N < Z.of_nat total_frames ->
  Z.of_nat total_frames <= 2 ^ 53 ->
  subsample_indices Examples.exact_arithmetic total_frames N
  = Ok ((fun i => i * (Z.of_nat total_frames - 1) / (N - 1))
        <$> range (Z.to_nat N)).
Proof.
  intros H2 HN HF. rewrite subsample_indices_long by lia. f_equal.
  apply list_fmap_ext. intros k i Hi.
  pose proof (lookup_lt_Some _ _ _ Hi) as Hlt. rewrite range_length in Hlt.
  rewrite range_lookup in Hi by done. injection Hi as <-.
  destruct (decide (Z.of_nat k = N - 1)) as [->|Hne].
  - rewrite (sample_last _ (Z.of_nat total_frames) N) by done.
    by rewrite ZfloorZ, (Z.mul_comm (N - 1)), Z.div_mul by lia.
  - rewrite (sample_interior _ (Z.of_nat total_frames) N); try (done || lia).
    + simpl. unfold Rdiv. rewrite <- Rmult_assoc, <- mult_IZR.
      apply Zfloor_div. lia.
    + simpl. pose proof (IZR_le 0 N ltac:(lia)). nra.
Qed.

Example subsample_five_to_three :
  subsample_indices Examples.exact_arithmetic 5 3 = Ok [0; 2; 4]
  /\ uniform_temporal_subsample Examples.exact_arithmetic
       ["a"; "b"; "c"; "d"; "e"] 3 = Ok ["a"; "c"; "e"].
Proof.
  assert (subsample_indices Examples.exact_arithmetic 5 3 = Ok [0; 2; 4]) as E
    by (by rewrite exact_indices).
  split; [exact E|]. unfold uniform_temporal_subsample. simpl length.
  by rewrite E.
Qed.

End SamplerFacts.

(** ** The batch runner *)

Module BatchFacts.
Import DeepfakeVideos.







End BatchFacts.

(** ** The temporal aggregation of [detect_video] *)

Module AggregationFacts.
Import Detector.

Section MaxLoop.
Variable key : string -> nat.

(** [max] returns an item of the iterable with the largest key. *)
Lemma max_loop_elem (best : string) (rest : list string) :
  max_loop key best rest ∈ best :: rest.
Proof.
  revert best; induction rest as [|x rest IH]; intros best; simpl.
  - apply list_elem_of_here.
  - destruct (key best <? key x)%nat.
    + apply list_elem_of_further, IH.
    + specialize (IH best). apply elem_of_cons in IH as [->|IH].
      * apply list_elem_of_here.
      * by do 2 apply list_elem_of_further.
Qed.

Lemma max_loop_ge_best (best : string) (rest : list string) :
  (key best <= key (max_loop key best rest))%nat.
Proof.
  revert best; induction rest as [|x rest IH]; intros best; simpl; [done|].
  destruct (Nat.ltb_spec (key best) (key x)); [|done].
  specialize (IH x). lia.
Qed.

Lemma max_loop_max (best : string) (rest : list string) (y : string) :
  y ∈ best :: rest -> (key y <= key (max_loop key best rest))%nat.
Proof.
  revert best; induction rest as [|x rest IH]; intros best Hy; simpl.
  - apply elem_of_cons in Hy as [->|Hy]; [done|]. by apply elem_of_nil in Hy.
  - apply elem_of_cons in Hy as [->|Hy].
    + destruct (Nat.ltb_spec (key best) (key x)).
      * pose proof (max_loop_ge_best x rest). lia.
      * apply max_loop_ge_best.
    + destruct (Nat.ltb_spec (key best) (key x)).
      * by apply IH.
      * apply elem_of_cons in Hy as [->|Hy].
        -- pose proof (max_loop_ge_best best rest). lia.
        -- apply IH. by apply list_elem_of_further.
Qed.

(** Ties go to the item met first: [max] moves on only to a strictly
    larger key. *)
Lemma max_loop_keeps_best (best : string) (rest : list string) :
  (forall y, y ∈ rest -> (key y <= key best)%nat) ->
  max_loop key best rest = best.
Proof.
  induction rest as [|x rest IH]; intros Hle; simpl; [done|].
  destruct (Nat.ltb_spec (key best) (key x)) as [Hlt|_].
  - specialize (Hle x (list_elem_of_here _ _)). lia.
  - apply IH. intros y Hy. apply Hle. by apply list_elem_of_further.
Qed.

End MaxLoop.

Lemma count_label_absent (results : list (string * R)) (l : string) :
  l ∉ (fun r => r.1) <$> results -> count_label results l = 0%nat.
Proof.
  intros Hl. unfold count_label.
  induction results as [|r results IH]; [done|].
  rewrite fmap_cons in Hl. apply not_elem_of_cons in Hl as [Hne Hl].
  rewrite filter_cons. destruct (decide (r.1 = l)); [congruence|].
  by apply IH.
Qed.

(** The label part of the aggregation: for a non-empty prediction
    sequence, whatever the iteration order of the label set, the final
    label occurs in the input and no label occurs more often. *)
Lemma final_label_majority (label_set : list string) (results : list (string * R)) :
  SetIteration ((fun r => r.1) <$> results) label_set ->
  results <> [] ->
  exists label : string,
    final_label label_set results = Ok label
    /\ label ∈ (fun r => r.1) <$> results
    /\ forall l : string, (count_label results l <= count_label results label)%nat.
Proof.
  intros (Hnd & Hsub & Hsup) Hne.
  destruct label_set as [|x rest].
  { destruct results as [|r results]; [done|].
    specialize (Hsup r.1). rewrite fmap_cons in Hsup.
    specialize (Hsup (list_elem_of_here _ _)). by apply elem_of_nil in Hsup. }
  exists (max_loop (count_label results) x rest). split; [done|]. split.
  - apply Hsub, max_loop_elem.
  - intros l. destruct (decide (l ∈ (fun r => r.1) <$> results)) as [Hl|Hl].
    + apply max_loop_max, Hsup, Hl.
    + rewrite (count_label_absent _ _ Hl). lia.
Qed.

Lemma sum_bounds (cs : list R) :
  Forall (fun c => 0 <= c <= 1)%R cs -> (0 <= Py.sum cs <= INR (length cs))%R.
Proof.
  induction 1 as [|c cs Hc _ IH]; simpl length; [simpl; lra|].
  rewrite S_INR. simpl. lra.
Qed.

(** What line 63 computes: the sum of the confidences of the entries
    whose label is [label], divided by the number of all entries. *)
Lemma avg_confidence_value (results : list (string * R)) (label : string) :
  results <> [] ->
  avg_confidence results label
  = Ok (Py.sum ((fun r => r.2) <$> filter (fun r => r.1 = label) results)
        / INR (length results))%R.
Proof.
  intros Hne. unfold avg_confidence.
  destruct results; [done|]. reflexivity.
Qed.

(** The confidence lies in [[0, 1]] when every per-frame confidence
    does. *)
Lemma avg_confidence_bounds (results : list (string * R)) (label : string) (c : R) :
  Forall (fun r => 0 <= r.2 <= 1)%R results ->
  avg_confidence results label = Ok c ->
  (0 <= c <= 1)%R.
Proof.
  intros Hall Hc. destruct (decide (results = [])) as [->|Hne]; [done|].
  rewrite avg_confidence_value in Hc by done. injection Hc as <-.
  set (m := filter (fun r => r.1 = label) results).
  assert (Forall (fun c => 0 <= c <= 1)%R ((fun r => r.2) <$> m)) as Hm.
  { apply Forall_fmap, Forall_forall. intros r Hr.
    apply list_elem_of_filter in Hr as [_ Hr].
    rewrite Forall_forall in Hall. by apply Hall. }
  apply sum_bounds in Hm. rewrite length_fmap in Hm.
  assert (length m <= length results)%nat as Hlen by apply length_filter.
  apply le_INR in Hlen.
  assert (0 < INR (length results))%R as Hpos.
  { apply lt_0_INR. destruct results; [done|simpl; lia]. }
  split.
  - apply Rmult_le_reg_r with (INR (length results)); [done|].
    unfold Rdiv. rewrite Rmult_assoc, Rinv_l by lra. lra.
  - apply Rmult_le_reg_r with (INR (length results)); [done|].
    unfold Rdiv. rewrite Rmult_assoc, Rinv_l by lra. lra.
Qed.

(** The computed confidence is the mean of the matching confidences
    scaled by the share of the matching entries. *)
Lemma avg_confidence_vs_mean (results : list (string * R)) (label : string) (c : R) :
  label ∈ (fun r => r.1) <$> results ->
  avg_confidence results label = Ok c ->
  (c = mean_of_matching results label
       * (INR (count_label results label) / INR (length results)))%R.
Proof.
  intros Hin Hc.
  assert (results <> []) as Hne by (intros ->; by apply elem_of_nil in Hin).
  rewrite avg_confidence_value in Hc by done. injection Hc as <-.
  unfold mean_of_matching.
  assert (0 < count_label results label)%nat as Hcount.
  { destruct (count_label results label) eqn:E; [|lia]. exfalso.
    unfold count_label in E. apply length_zero_iff_nil in E.
    apply list_elem_of_fmap in Hin as (r & -> & Hr).
    assert (r ∈ filter (fun r0 => r0.1 = r.1) results) as Hf
      by (by apply list_elem_of_filter).
    rewrite E in Hf. by apply elem_of_nil in Hf. }
  apply lt_0_INR in Hcount.
  assert (0 < INR (length results))%R.
  { apply lt_0_INR. destruct results; [done|simpl; lia]. }
  field. split; lra.
Qed.

(** C1 (the code at a failing input): for the predictions
    [("A",0.9), ("B",0.8), ("A",0.7)] the aggregation returns the
    majority label "A" under either iteration order of the label set,
    with confidence (0.9 + 0.7) / 3: the sum of the matching
    confidences is divided by the number of all entries, not by the
    number of matching ones, so the result is not the mean 0.8 of the
    confidences of the entries labelled "A". *)
Theorem aggregate_divides_by_all_entries :
  exists c : R,
    aggregate ["A"; "B"] Examples.majority_input = Ok ("A", c)
    /\ aggregate ["B"; "A"] Examples.majority_input = Ok ("A", c)
    /\ c = (16 / 30)%R
    /\ mean_of_matching Examples.majority_input "A" = (8 / 10)%R
    /\ c <> mean_of_matching Examples.majority_input "A".
Proof.
  assert (mean_of_matching Examples.majority_input "A" = (8 / 10)%R) as Hmean.
  { unfold mean_of_matching, Examples.majority_input, count_label.
    rewrite !filter_cons, filter_nil. simpl. lra. }
  eexists. split; [reflexivity|]. split; [reflexivity|].
  rewrite Hmean. simpl. split; [lra|]. split; [done|lra].
Qed.

(** C2 (as stated): on the tied input the label set can be iterated
    "B" first, and then the aggregation returns "B", not "A"; iterated
    "A" first it returns "A", with confidence (0.9 + 0.7) / 4 = 0.4, not
    0.8. *)
Lemma tie_not_settled_by_first_occurrence :
  SetIteration ((fun r => r.1) <$> Examples.tie_input) ["B"; "A"]
  /\ (exists c : R, aggregate ["B"; "A"] Examples.tie_input = Ok ("B", c))
  /\ (exists c : R, aggregate ["A"; "B"] Examples.tie_input = Ok ("A", c)
                    /\ c = (4 / 10)%R /\ c <> (8 / 10)%R).
Proof.
  split; [|split].
  - apply (bool_decide_eq_true_1 _). reflexivity.
  - eexists. reflexivity.
  - eexists. split; [reflexivity|]. simpl. split; lra.
Qed.

(** C2 (amended): on the input [("A",0.9), ("B",0.8), ("A",0.7),
    ("B",0.95)], where "A" and "B" occur twice each, the aggregation
    returns one of the two tied labels: the one that comes first in the
    iteration order of the label set. *)
Theorem tie_goes_to_first_in_set_order (label_set : list string) :
  SetIteration ((fun r => r.1) <$> Examples.tie_input) label_set ->
  exists (label : string) (c : R),
    aggregate label_set Examples.tie_input = Ok (label, c)
    /\ head label_set = Some label
    /\ (label = "A" \/ label = "B")
    /\ count_label Examples.tie_input "A" = 2%nat
    /\ count_label Examples.tie_input "B" = 2%nat.
Proof.
  intros (Hnd & Hsub & Hsup).
  assert (forall y, y ∈ label_set -> y = "A" \/ y = "B") as Hab.
  { intros y Hy. apply Hsub in Hy. simpl in Hy.
    repeat (apply elem_of_cons in Hy as [->|Hy]; [auto|]).
    by apply elem_of_nil in Hy. }
  assert (count_label Examples.tie_input "A" = 2%nat) as HA by reflexivity.
  assert (count_label Examples.tie_input "B" = 2%nat) as HB by reflexivity.
  destruct label_set as [|x rest].
  { specialize (Hsup "A"). simpl in Hsup.
    specialize (Hsup (list_elem_of_here _ _)). by apply elem_of_nil in Hsup. }
  assert (max_loop (count_label Examples.tie_input) x rest = x) as Hmax.
  { apply max_loop_keeps_best. intros y Hy.
    destruct (Hab y) as [->| ->]; [by apply list_elem_of_further|..];
      (destruct (Hab x) as [->| ->]; [apply list_elem_of_here|..]);
      rewrite ?HA, ?HB; lia. }
  destruct (avg_confidence Examples.tie_input x) as [c|e] eqn:Hc.
  2:{ by rewrite avg_confidence_value in Hc. }
  exists x, c. split.
  - unfold aggregate, final_label, py_max. rewrite Hmax.
    unfold mbind, result_bind. by rewrite Hc.
  - split; [done|]. split; [apply Hab, list_elem_of_here|done].
Qed.

Lemma tie_goes_to_first_in_set_order_witness :
  exists (label : string) (c : R),
    aggregate ["A"; "B"] Examples.tie_input = Ok (label, c)
    /\ head ["A"; "B"] = Some label
    /\ (label = "A" \/ label = "B")
    /\ count_label Examples.tie_input "A" = 2%nat
    /\ count_label Examples.tie_input "B" = 2%nat.
Proof.
  apply (tie_goes_to_first_in_set_order ["A"; "B"]).
  apply (bool_decide_eq_true_1 _). reflexivity.
Defined.

End AggregationFacts.

(** ** Further properties of the aggregation, at sample inputs *)

Module AggregationExamples.
Import Detector.

Lemma final_label_majority_witness :
  exists label : string,
    final_label ["A"; "B"] Examples.majority_input = Ok label
    /\ label ∈ (fun r => r.1) <$> Examples.majority_input
    /\ forall l : string,
         (count_label Examples.majority_input l
          <= count_label Examples.majority_input label)%nat.
Proof.
  apply (AggregationFacts.final_label_majority ["A"; "B"] Examples.majority_input).
  - apply (bool_decide_eq_true_1 _). reflexivity.
  - discriminate.
Defined.

Lemma avg_confidence_bounds_witness :
  (0 <= Py.sum [9 / 10; 7 / 10] / INR 3 <= 1)%R.
Proof.
  apply (AggregationFacts.avg_confidence_bounds Examples.majority_input "A").
  - repeat constructor; simpl; lra.
  - reflexivity.
Defined.

Lemma avg_confidence_vs_mean_witness :
  (Py.sum [9 / 10; 7 / 10] / INR 3
   = mean_of_matching Examples.majority_input "A"
     * (INR (count_label Examples.majority_input "A")
        / INR (length Examples.majority_input)))%R.
Proof.
  apply (AggregationFacts.avg_confidence_vs_mean Examples.majority_input "A").
  - apply (bool_decide_eq_true_1 _). reflexivity.
  - reflexivity.
Defined.

End AggregationExamples.

(** ** Softmax, argmax and max *)

Module NumericFacts.

Lemma sum_exp_pos (l : list R) : l <> [] -> (0 < Py.sum (exp <$> l))%R.
Proof.
  intros Hne. destruct l as [|x l]; [done|]. clear Hne.
  revert x; induction l as [|y l IH]; intros x; simpl.
  - pose proof (exp_pos x). lra.
  - pose proof (exp_pos x). specialize (IH y). simpl in IH. lra.
Qed.

Lemma exp_le (x y : R) : (x <= y)%R -> (exp x <= exp y)%R.
Proof.
  intros [Hlt| ->]; [|lra]. left. by apply exp_increasing.
Qed.

Section Monotone.
Variable f : R -> R.
Hypothesis f_mono : forall x y : R, (x <= y)%R -> (f x <= f y)%R.

Lemma Rmax_mono (x y : R) : Rmax (f x) (f y) = f (Rmax x y).
Proof.
  unfold Rmax. destruct (Rle_dec x y) as [Hxy|Hxy], (Rle_dec (f x) (f y)) as [Hf|Hf];
    try done.
  - exfalso. by apply Hf, f_mono.
  - apply Rle_antisym; [|done]. apply f_mono. lra.
Qed.

Lemma foldl_Rmax_mono (x : R) (l : list R) :
  foldl Rmax (f x) (f <$> l) = f (foldl Rmax x l).
Proof.
  revert x; induction l as [|y l IH]; intros x; simpl; [done|].
  by rewrite Rmax_mono, IH.
Qed.

End Monotone.

(** [argmax_from] returns a position that holds the running maximum. *)
Lemma argmax_from_lookup (whole l : list R) (best_i i : nat) (best : R) :
  whole !! best_i = Some best ->
  (forall j : nat, whole !! (i + j)%nat = l !! j) ->
  whole !! argmax_from best_i best i l = Some (foldl Rmax best l).
Proof.
  revert best_i best i; induction l as [|x l IH]; intros best_i best i Hbest Hl; simpl.
  - done.
  - destruct (Rlt_dec best x) as [Hlt|Hge].
    + rewrite Rmax_right by lra.
      apply IH.
      * specialize (Hl 0%nat). by rewrite Nat.add_0_r in Hl.
      * intros j. specialize (Hl (S j)). by rewrite <- Nat.add_succ_comm in Hl.
    + rewrite Rmax_left by lra.
      apply IH; [done|].
      intros j. specialize (Hl (S j)). by rewrite <- Nat.add_succ_comm in Hl.
Qed.

(** The maximum of the softmax scores is the softmax score at the
    argmax of the raw scores. *)
Lemma softmax_max_at_argmax (logits : list R) :
  logits <> [] ->
  exists (idx : nat) (c : R),
    argmax logits = Ok idx
    /\ tensor_max (softmax logits) = Ok c
    /\ softmax logits !! idx = Some c.
Proof.
  intros Hne. pose proof (sum_exp_pos logits Hne) as Hz.
  destruct logits as [|x l]; [done|].
  set (z := Py.sum (exp <$> x :: l)) in *.
  set (f := fun y : R => (exp y / z)%R).
  assert (forall a b : R, (a <= b)%R -> (f a <= f b)%R) as Hmono.
  { intros a b Hab. unfold f, Rdiv.
    apply Rmult_le_compat_r; [|by apply exp_le].
    left. by apply Rinv_0_lt_compat. }
  exists (argmax_from 0 x 1 l), (f (foldl Rmax x l)).
  split; [done|]. split.
  - unfold softmax. fold z. fold f. simpl. by rewrite foldl_Rmax_mono.
  - unfold softmax. fold z. fold f. rewrite list_lookup_fmap.
    by rewrite (argmax_from_lookup (x :: l) l 0 1 x).
Qed.

End NumericFacts.

(** ** The detectors of the backend *)

Module DetectorFacts.
Import Detector.

(** The frame loop classifies the leading frames of the capture, as
    many as the count [frames_analyzed] leaves room for below ten. *)
Lemma frame_loop_budget (rt : Runtime) (cap : list (BgrFrame rt)) (k n : nat)
    (results : list (string * R)) :
  (n + k = 10)%nat ->
  frame_loop rt true cap n results
  = (ys ← comprehension (classify_frame rt) (take k cap); Ok (results ++ ys)).
Proof.
  revert k n results; induction cap as [|frame cap IH]; intros k n results Hk.
  - simpl. rewrite take_nil. simpl. rewrite app_nil_r. by destruct (n <? 10)%nat.
  - destruct k as [|k].
    + simpl. destruct (Nat.ltb_spec n 10) as [Hlt|Hge]; [lia|].
      simpl. by rewrite app_nil_r.
    + simpl. destruct (Nat.ltb_spec n 10) as [Hlt|Hge]; [|lia]. simpl.
      destruct (classify_frame rt frame) as [[label confidence]|e]; simpl; [|done].
      rewrite (IH k (S n)) by lia.
      destruct (comprehension (classify_frame rt) (take k cap)); simpl; [|done].
      by rewrite <- app_assoc.
Qed.

Lemma frame_loop_opened (rt : Runtime) (cap : list (BgrFrame rt)) :
  frame_loop rt true cap 0 []
  = comprehension (classify_frame rt) (take 10 cap).
Proof.
  rewrite (frame_loop_budget rt cap 10 0) by done.
  by destruct (comprehension _ _).
Qed.

Lemma frame_loop_not_opened (rt : Runtime) (cap : list (BgrFrame rt)) (n : nat)
    (results : list (string * R)) :
  frame_loop rt false cap n results = Ok results.
Proof. destruct cap; simpl; by rewrite andb_false_r. Qed.

Lemma frame_loop_decodable (rt : Runtime) (cap : VideoCapture (BgrFrame rt)) :
  frame_loop rt (isOpened cap) (stream cap) 0 []
  = comprehension (classify_frame rt) (take 10 (decodable cap)).
Proof.
  unfold decodable. destruct (isOpened cap).
  - apply frame_loop_opened.
  - by rewrite frame_loop_not_opened.
Qed.

(** C9: [detect_video] classifies the first [min 10 F] frames of the
    video in decode order and nothing else.  Its response is the
    aggregation of the predictions of exactly those frames: when they
    are classified as [results], one prediction per frame and in their
    order, the response is made from [aggregate] on [results], and in
    general it is what the classification of those frames followed by
    the aggregation gives; so two uploads whose first ten frames agree
    get the same response. *)
Theorem detect_video_reads_first_ten_frames (rt : Runtime) (file : Upload rt)
    (cap : VideoCapture (BgrFrame rt)) :
  video_capture rt file = Ok cap ->
  frame_loop rt (isOpened cap) (stream cap) 0 []
    = comprehension (classify_frame rt) (take 10 (decodable cap))
  /\ length (take 10 (decodable cap)) = (10 `min` length (decodable cap))%nat
  /\ detect_video rt file
     = try_except
         (results ← comprehension (classify_frame rt) (take 10 (decodable cap));
          '(label, confidence) ←
             aggregate (set_order rt ((fun r => r.1) <$> results)) results;
          Ok (detection_record "video" label confidence "frame_consistency"))
         (fun e => Ok (error_record ("Video detection failed: " +:+ exn_str e)))
  /\ (forall results : list (string * R),
        Forall2 (fun frame r => classify_frame rt frame = Ok r)
          (take 10 (decodable cap)) results ->
        length results = (10 `min` length (decodable cap))%nat
        /\ detect_video rt file
           = try_except
               ('(label, confidence) ←
                  aggregate (set_order rt ((fun r => r.1) <$> results)) results;
                Ok (detection_record "video" label confidence "frame_consistency"))
               (fun e => Ok (error_record ("Video detection failed: "
                                            +:+ exn_str e))))
  /\ forall (file' : Upload rt) (cap' : VideoCapture (BgrFrame rt)),
       video_capture rt file' = Ok cap' ->
       take 10 (decodable cap') = take 10 (decodable cap) ->
       detect_video rt file' = detect_video rt file.
Proof.
  intros Hcap.
  assert (detect_video rt file
          = try_except
              (results ← comprehension (classify_frame rt)
                           (take 10 (decodable cap));
               '(label, confidence) ←
                  aggregate (set_order rt ((fun r => r.1) <$> results)) results;
               Ok (detection_record "video" label confidence "frame_consistency"))
              (fun e => Ok (error_record ("Video detection failed: "
                                           +:+ exn_str e)))) as Hdetect.
  { unfold detect_video. rewrite Hcap. simpl. by rewrite frame_loop_decodable. }
  split; [apply frame_loop_decodable|]. split; [apply length_take|].
  split; [exact Hdetect|]. split.
  - intros results Hresults. split.
    + rewrite <- (Forall2_length _ _ _ Hresults). apply length_take.
    + rewrite Hdetect.
      assert (comprehension (classify_frame rt) (take 10 (decodable cap))
              = Ok results) as ->; [|done].
      clear Hdetect. induction Hresults as [|frame r frames rs Hr _ IH]; [done|].
      simpl. rewrite Hr. simpl. by rewrite IH.
  - intros file' cap' Hcap' Hsame. unfold detect_video.
    rewrite Hcap, Hcap'. simpl.
    by rewrite !frame_loop_decodable, Hsame.
Qed.

(** A video of twelve frames and the video of its first ten. *)
Lemma detect_video_reads_first_ten_frames_witness :
  frame_loop Examples.runtime_first_seen true (replicate 12 [0; 1]%R) 0 []
    = comprehension (classify_frame Examples.runtime_first_seen)
        (take 10 (replicate 12 [0; 1]%R))
  /\ length (take 10 (replicate 12 [0; 1]%R)) = (10 `min` 12)%nat
  /\ detect_video Examples.runtime_first_seen (replicate 12 [0; 1]%R)
     = try_except
         (results ← comprehension (classify_frame Examples.runtime_first_seen)
                      (take 10 (replicate 12 [0; 1]%R));
          '(label, confidence) ←
             aggregate (Examples.first_seen ((fun r => r.1) <$> results)) results;
          Ok (detection_record "video" label confidence "frame_consistency"))
         (fun e => Ok (error_record ("Video detection failed: " +:+ exn_str e)))
  /\ (forall results : list (string * R),
        Forall2 (fun frame r => classify_frame Examples.runtime_first_seen frame
                                = Ok r)
          (take 10 (replicate 12 [0; 1]%R)) results ->
        length results = (10 `min` 12)%nat
        /\ detect_video Examples.runtime_first_seen (replicate 12 [0; 1]%R)
           = try_except
               ('(label, confidence) ←
                  aggregate (Examples.first_seen ((fun r => r.1) <$> results))
                    results;
                Ok (detection_record "video" label confidence "frame_consistency"))
               (fun e => Ok (error_record ("Video detection failed: "
                                            +:+ exn_str e))))
  /\ forall (file' : list (list R)) (cap' : VideoCapture (list R)),
       Ok {| isOpened := true; stream := file' |} = Ok cap' ->
       take 10 (decodable cap') = take 10 (replicate 12 [0; 1]%R) ->
       detect_video Examples.runtime_first_seen file'
       = detect_video Examples.runtime_first_seen (replicate 12 [0; 1]%R).
Proof.
  apply (detect_video_reads_first_ten_frames Examples.runtime_first_seen
           (replicate 12 [0; 1]%R)
           {| isOpened := true; stream := replicate 12 [0; 1]%R |}).
  reflexivity.
Defined.

(** On no prediction at all the aggregation raises, whatever the label
    set is taken to be. *)
Lemma aggregate_empty (label_set : list string) :
  SetIteration [] label_set ->
  aggregate label_set [] = Raise (ValueError "max() arg is an empty sequence").
Proof.
  intros (_ & Hsub & _). destruct label_set as [|x rest]; [done|].
  specialize (Hsub x (list_elem_of_here _ _)). by apply elem_of_nil in Hsub.
Qed.

(** C6: when no per-frame prediction was collected (the capture
    delivers no frame), the aggregation step raises the [ValueError] of
    [max] on an empty sequence instead of returning a result, and
    [detect_video] answers with the error record made from it. *)
Theorem empty_predictions_fail (rt : Runtime) (file : Upload rt)
    (cap : VideoCapture (BgrFrame rt)) :
  video_capture rt file = Ok cap ->
  decodable cap = [] ->
  frame_loop rt (isOpened cap) (stream cap) 0 [] = Ok []
  /\ aggregate (set_order rt []) []
     = Raise (ValueError "max() arg is an empty sequence")
  /\ detect_video rt file
     = Ok (error_record "Video detection failed: max() arg is an empty sequence").
Proof.
  intros Hcap Hnone.
  assert (frame_loop rt (isOpened cap) (stream cap) 0 [] = Ok []) as Hloop
    by (by rewrite frame_loop_decodable, Hnone).
  assert (aggregate (set_order rt []) []
          = Raise (ValueError "max() arg is an empty sequence")) as Hagg
    by apply aggregate_empty, set_order_spec.
  split; [done|]. split; [done|].
  unfold detect_video. rewrite Hcap. simpl. rewrite Hloop. simpl.
  by rewrite Hagg.
Qed.

Lemma empty_predictions_fail_witness :
  frame_loop Examples.runtime_first_seen true [] 0 [] = Ok []
  /\ aggregate (Examples.first_seen []) []
     = Raise (ValueError "max() arg is an empty sequence")
  /\ detect_video Examples.runtime_first_seen []
     = Ok (error_record "Video detection failed: max() arg is an empty sequence").
Proof.
  apply (empty_predictions_fail Examples.runtime_first_seen []
           {| isOpened := true; stream := [] |}); reflexivity.
Defined.

Lemma detection_record_is_detection (type label : string) (confidence : R)
    (artifact : string) :
  is_detection (detection_record type label confidence artifact).
Proof. unfold is_detection, detection_record. by repeat eexists. Qed.

Lemma error_record_is_error (message : string) : is_error (error_record message).
Proof. by eexists. Qed.

(** C10: [detect_image] and [detect_video] never raise; each returns a
    dictionary that carries either the detection fields (type, label,
    confidence, artifacts) or an ["error"] key with a message. *)
Theorem detectors_never_raise (rt : Runtime) (file : Upload rt) :
  (exists d : gmap string value,
     detect_image rt file = Ok d /\ (is_detection d \/ is_error d))
  /\ (exists d : gmap string value,
        detect_video rt file = Ok d /\ (is_detection d \/ is_error d)).
Proof.
  split.
  - unfold detect_image.
    destruct (image_open rt file) as [image|e]; simpl.
    2:{ eexists; split; [done|]. right. apply error_record_is_error. }
    destruct (classify rt image) as [[label confidence]|e]; simpl.
    + eexists; split; [done|]. left. apply detection_record_is_detection.
    + eexists; split; [done|]. right. apply error_record_is_error.
  - unfold detect_video.
    destruct (video_capture rt file) as [cap|e]; simpl.
    2:{ eexists; split; [done|]. right. apply error_record_is_error. }
    destruct (frame_loop rt (isOpened cap) (stream cap) 0 []) as [results|e]; simpl.
    2:{ eexists; split; [done|]. right. apply error_record_is_error. }
    destruct (aggregate _ results) as [[label confidence]|e]; simpl.
    + eexists; split; [done|]. left. apply detection_record_is_detection.
    + eexists; split; [done|]. right. apply error_record_is_error.
Qed.

(** C8: in a classification call whose model returns [logits], the
    label is the class at the argmax of the logits, and the confidence,
    the maximum of the softmax scores, is the softmax score of that
    same class.  This holds for [detect_image] (and the per-frame step
    of [detect_video]) and for [predict_single_image]. *)
Theorem confidence_is_softmax_at_argmax (rt : Runtime) (file : Upload rt)
    (image : Img rt) (logits : list R) :
  image_open rt file = Ok image ->
  logits_of rt image = Ok logits ->
  logits <> [] ->
  exists (idx : nat) (c : R),
    argmax logits = Ok idx
    /\ softmax logits !! idx = Some c
    /\ tensor_max (softmax logits) = Ok c
    /\ (forall label : string,
          id2label rt !! idx = Some label ->
          classify rt image = Ok (label, c)
          /\ detect_image rt file
             = Ok (detection_record "image" label c "face_texture"))
    /\ (forall (m : DeepfakeImage.ImageModel) (image_path : string)
               (img : DeepfakeImage.Img m),
          DeepfakeImage.image_open m image_path = Ok img ->
          DeepfakeImage.logits_of m img = Ok logits ->
          DeepfakeImage.predict_single_image m image_path
          = Ok (Some (if (idx =? 1)%nat then "Real" else "Fake"), Some c)).
Proof.
  intros Hopen Hlogits Hne.
  destruct (NumericFacts.softmax_max_at_argmax logits Hne) as (idx & c & Hidx & Hmax & Hc).
  exists idx, c. split; [done|]. split; [done|]. split; [done|]. split.
  - intros label Hlabel.
    assert (classify rt image = Ok (label, c)) as Hclass.
    { unfold classify. rewrite Hlogits; simpl. rewrite Hidx; simpl.
      unfold dict_getitem_int. rewrite Hlabel; simpl. by rewrite Hmax. }
    split; [done|]. unfold detect_image. rewrite Hopen; simpl. by rewrite Hclass.
  - intros m image_path img Himg Hlog.
    unfold DeepfakeImage.predict_single_image.
    rewrite Himg; simpl. rewrite Hlog; simpl. rewrite Hidx; simpl.
    by rewrite (getitem_nat _ _ _ Hc).
Qed.

(** An image whose model scores are [1, 2]. *)
Lemma confidence_is_softmax_at_argmax_witness :
  exists (idx : nat) (c : R),
    argmax [1; 2]%R = Ok idx
    /\ softmax [1; 2]%R !! idx = Some c
    /\ tensor_max (softmax [1; 2]%R) = Ok c
    /\ (forall label : string,
          id2label Examples.runtime_first_seen !! idx = Some label ->
          classify Examples.runtime_first_seen [1; 2]%R = Ok (label, c)
          /\ detect_image Examples.runtime_first_seen [[1; 2]%R]
             = Ok (detection_record "image" label c "face_texture"))
    /\ (forall (m : DeepfakeImage.ImageModel) (image_path : string)
               (img : DeepfakeImage.Img m),
          DeepfakeImage.image_open m image_path = Ok img ->
          DeepfakeImage.logits_of m img = Ok [1; 2]%R ->
          DeepfakeImage.predict_single_image m image_path
          = Ok (Some (if (idx =? 1)%nat then "Real" else "Fake"), Some c)).
Proof.
  apply (confidence_is_softmax_at_argmax Examples.runtime_first_seen
           [[1; 2]%R] [1; 2]%R [1; 2]%R); [reflexivity|reflexivity|discriminate].
Defined.

End DetectorFacts.

(** ** The explanation layer *)

Module LlmFacts.
Import LlmService.

Lemma system_prompt_ok (intent : string) :
  exists system : string, system_prompt intent = Ok system.
Proof. unfold system_prompt. eexists. reflexivity. Qed.

(** Line 43 on a body that has the completion text, and on one that has
    not. *)
Lemma completion_text_some (data v : value) (intent fallback : string) :
  FALLBACKS !! intent = Some fallback ->
  completion_content data = Some v ->
  completion_text data intent = Ok v.
Proof.
  intros Hfb Hv. unfold completion_text, completion_content in *.
  unfold dict_getitem. rewrite Hfb.
  destruct data as [| | | | |d]; try done.
  destruct (d !! "choices") as [[| | | |[|[| | | | |choice] ?]|]|] eqn:Hch; try done.
  destruct (choice !! "message") as [[| | | | |msg]|] eqn:Hmsg; try done.
  unfold value_get; simpl. rewrite Hch; simpl. rewrite Hmsg; simpl. by rewrite Hv.
Qed.

Lemma completion_text_none (data : value) (intent fallback : string) :
  FALLBACKS !! intent = Some fallback ->
  completion_content data = None ->
  completion_text data intent = Ok (VStr fallback)
  \/ exists e : exn, completion_text data intent = Raise e.
Proof.
  intros Hfb Hv. unfold completion_text, completion_content in *.
  unfold dict_getitem. rewrite Hfb.
  destruct data as [| | | | |d]; simpl; eauto.
  unfold value_get at 2. simpl.
  destruct (d !! "choices") as [choices|] eqn:Hch; simpl.
  2:{ left. unfold value_get; simpl. by rewrite lookup_empty. }
  destruct choices as [| | |s|l|d']; simpl; eauto.
  { destruct s; simpl; eauto. }
  destruct l as [|c l]; simpl; eauto.
  change (getitem (c :: l) 0) with (Ok c : result value). simpl.
  destruct c as [| | | | |choice]; simpl; eauto.
  unfold value_get; simpl.
  destruct (choice !! "message") as [m|] eqn:Hmsg; simpl.
  2:{ left. by rewrite lookup_empty. }
  destruct m as [| | | | |msg]; simpl; eauto.
  left. by rewrite Hv.
Qed.

(** Whatever happens inside the [try], a request with one of the four
    intents gets a value; after a detected failure of the request that
    was built it is the fallback text of the intent. *)
Lemma generate_response_fallback (env : Env) (prompt intent : string)
    (context : list value) (fallback system : string) :
  FALLBACKS !! intent = Some fallback ->
  system_prompt intent = Ok system ->
  call_failed (requests_post env (API_URL env) (request_headers env)
                 (request_body (chat_messages system context prompt))) ->
  generate_response env prompt intent context = Ok (VStr fallback).
Proof.
  intros Hfb Hsys Hfail. unfold generate_response.
  rewrite Hsys. simpl.
  unfold dict_getitem at 1. rewrite Hfb.
  inversion Hfail as [e He|r Hstatus Hr|r e Hjson Hr|r data Hjson Hnone Hr];
    simpl; [done|..].
  - unfold raise_for_status.
    destruct (Z.leb_spec 400 (status_code r)); [|lia].
    by destruct (Z.ltb_spec (status_code r) 600); [|lia].
  - destruct (raise_for_status r); simpl; [|done]. by rewrite Hjson.
  - destruct (raise_for_status r); simpl; [|done]. rewrite Hjson; simpl.
    by destruct (completion_text_none data intent fallback Hfb Hnone) as [->|[e ->]].
Qed.

(** When the request that was built is answered by a response that
    passes [raise_for_status] and whose body carries a completion, that
    completion is returned. *)
Lemma generate_response_success (env : Env) (prompt intent : string)
    (context : list value) (fallback system : string) (r : Response)
    (data content : value) :
  FALLBACKS !! intent = Some fallback ->
  system_prompt intent = Ok system ->
  requests_post env (API_URL env) (request_headers env)
    (request_body (chat_messages system context prompt)) = Ok r ->
  ~ (400 <= status_code r < 600) ->
  json r = Ok data ->
  completion_content data = Some content ->
  generate_response env prompt intent context = Ok content.
Proof.
  intros Hfb Hsys Hpost Hstatus Hjson Hcontent. unfold generate_response.
  rewrite Hsys. simpl. rewrite Hpost. simpl.
  assert (raise_for_status r = Ok ()) as ->.
  { unfold raise_for_status.
    destruct (Z.leb_spec 400 (status_code r)); [|done].
    destruct (Z.ltb_spec (status_code r) 600); [lia|done]. }
  simpl. rewrite Hjson. simpl.
  by rewrite (completion_text_some data content intent fallback).
Qed.

(** A service that answers with the text of the last message it was
    sent. *)
Lemma generate_response_success_witness :
  generate_response Examples.service_echo "Is this video real?" "analysis" []
  = Ok (VStr "Is this video real?").
Proof.
  apply (generate_response_success Examples.service_echo "Is this video real?"
           "analysis" []
           "Based on multi-method forensic analysis, this content shows the indicated confidence level for authenticity assessment."
           (default "" (SYSTEM_PROMPTS !! "analysis"))
           {| status_code := 200;
              json := Ok (Examples.completion (VStr "Is this video real?")) |}
           (Examples.completion (VStr "Is this video real?"))
           (VStr "Is this video real?"));
    try reflexivity.
  simpl. lia.
Defined.

End LlmFacts.

(** ** The agent: detection with explanation *)

Module AgentFacts.
Import Detector LlmService Agent.

Lemma detect_image_response (rt : Runtime) (file : Upload rt) :
  exists d : gmap string value, detect_image rt file = Ok d /\ detector_response d.
Proof.
  unfold detect_image, detector_response.
  destruct (image_open rt file) as [image|e]; simpl; [|by eauto 10].
  destruct (classify rt image) as [[label confidence]|e]; simpl; by eauto 10.
Qed.

Lemma detect_video_response (rt : Runtime) (file : Upload rt) :
  exists d : gmap string value, detect_video rt file = Ok d /\ detector_response d.
Proof.
  unfold detect_video, detector_response.
  destruct (video_capture rt file) as [cap|e]; simpl; [|by eauto 10].
  destruct (frame_loop rt (isOpened cap) (stream cap) 0 []) as [results|e]; simpl;
    [|by eauto 10].
  destruct (aggregate _ results) as [[label confidence]|e]; simpl; by eauto 10.
Qed.

(** On a detector's response the prompt is built without an exception,
    so the explanation is whatever [generate_response] gives for the
    intent "analysis". *)
Lemma explanation_of_detector_response (env : Env) (d : gmap string value)
    (filename technical_level : string) :
  detector_response d ->
  exists prompt : string,
    generate_analysis_explanation env d filename technical_level
    = generate_response env prompt "analysis" [].
Proof.
  intros [(type & label & confidence & artifact & ->)|(message & ->)];
    eexists; reflexivity.
Qed.

(** C7 (as stated): a 300 response is not a 2xx response, yet
    [raise_for_status] lets it pass, and the completion in its body is
    returned in place of the fallback text of the intent; and a body
    whose completion is JSON [null] yields [None], not the fallback
    text. *)
Lemma undetected_failures_not_replaced :
  ((forall (headers : gmap string string) (body : gmap string value),
      spec_call_failed
        (requests_post Examples.service_300 (API_URL Examples.service_300)
           headers body))
   /\ exists fallback : string,
        FALLBACKS !! "analysis" = Some fallback
        /\ generate_response Examples.service_300 "Is this video real?" "analysis" []
           = Ok (VStr "served text")
        /\ VStr "served text" <> VStr fallback)
  /\ ((forall (headers : gmap string string) (body : gmap string value),
         spec_call_failed
           (requests_post Examples.service_null (API_URL Examples.service_null)
              headers body))
      /\ generate_response Examples.service_null "Is this video real?" "analysis" []
         = Ok VNone).
Proof.
  split; split.
  - intros headers body. apply spec_non_2xx. simpl. lia.
  - eexists. split; [reflexivity|]. split; [reflexivity|]. discriminate.
  - intros headers body.
    by apply (spec_content_not_text _ (Examples.completion VNone) VNone).
  - reflexivity.
Qed.

(** An intent outside the four categories has no fallback text: the
    look-up in the handler raises. *)
Example unknown_intent_raises :
  generate_response Examples.service_500 "Is this video real?" "other" []
  = Raise (KeyError "other").
Proof. reflexivity. Qed.

(** [generate_analysis_explanation] builds its prompt and hands it to
    [generate_response] with the intent "analysis" and no context. *)
Lemma generate_analysis_explanation_prompt (env : Env) (d : gmap string value)
    (filename technical_level : string) :
  generate_analysis_explanation env d filename technical_level
  = (prompt ← analysis_explanation_prompt env d filename technical_level;
     generate_response env prompt "analysis" []).
Proof.
  unfold generate_analysis_explanation, analysis_explanation_prompt.
  destruct (percent_1f env _); [|reflexivity].
  destruct (str_lower _); [|reflexivity].
  destruct (iterate _) as [items|]; [|reflexivity].
  cbv beta iota delta [mbind result_bind].
  destruct (comprehension _ items) as [types|]; [|reflexivity].
  destruct (join ", " types); [|reflexivity].
  destruct (comprehension _ items) as [details|]; [|reflexivity].
  destruct (join "; " details); reflexivity.
Qed.

Lemma prompt_of_detector_response (env : Env) (d : gmap string value)
    (filename technical_level : string) :
  detector_response d ->
  exists prompt : string,
    analysis_explanation_prompt env d filename technical_level = Ok prompt.
Proof.
  intros [(type & label & confidence & artifact & ->)|(message & ->)];
    eexists; reflexivity.
Qed.

(** C7 (amended): when the external call fails in a way the code
    detects (the request raises, the status is a 4xx or 5xx code, the
    body is not JSON, or it has no [choices[0].message.content]),
    [generate_response] returns the fallback text of the request's
    intent, for each of the four intents, and [deepfake_agent] on an
    image or a video returns the detector's response with that text
    (of the intent "analysis") as its explanation: label and
    confidence are those of the detection step.  The failure is that of
    the request the code sends: its URL, its headers, and the messages
    built from the prompt. *)
Theorem failed_explanation_keeps_detection (rt : Runtime) (env : Env)
    (filename : Upload rt -> string) (file : Upload rt)
    (file_type technical_level : string) :
  startswith file_type "image/" = true \/ startswith file_type "video/" = true ->
  (forall (detection : gmap string value) (prompt system : string),
     (if startswith file_type "image/"
      then detect_image rt file else detect_video rt file) = Ok detection ->
     analysis_explanation_prompt env detection (filename file) technical_level
     = Ok prompt ->
     system_prompt "analysis" = Ok system ->
     call_failed (requests_post env (API_URL env) (request_headers env)
                    (request_body (chat_messages system [] prompt)))) ->
  (forall (prompt intent : string) (context : list value)
          (fallback system : string),
     FALLBACKS !! intent = Some fallback ->
     system_prompt intent = Ok system ->
     call_failed (requests_post env (API_URL env) (request_headers env)
                    (request_body (chat_messages system context prompt))) ->
     generate_response env prompt intent context = Ok (VStr fallback))
  /\ exists (detection response : gmap string value) (fallback : string),
       (if startswith file_type "image/"
        then detect_image rt file else detect_video rt file) = Ok detection
       /\ FALLBACKS !! "analysis" = Some fallback
       /\ deepfake_agent rt env filename file file_type technical_level = Ok response
       /\ response = <["explanation" := VStr fallback]> detection
       /\ response !! "label" = detection !! "label"
       /\ response !! "confidence" = detection !! "confidence".
Proof.
  intros Htype Hfail.
  split; [intros prompt intent context fallback system;
          apply LlmFacts.generate_response_fallback|].
  assert (exists detection : gmap string value,
            (if startswith file_type "image/"
             then detect_image rt file else detect_video rt file) = Ok detection
            /\ detector_response detection) as (detection & Hdet & Hshape).
  { destruct (startswith file_type "image/");
      [apply detect_image_response | apply detect_video_response]. }
  destruct (FALLBACKS !! "analysis") as [fallback|] eqn:Hfb; [|done].
  exists detection, (<["explanation" := VStr fallback]> detection), fallback.
  split; [done|]. split; [done|]. split; [|split; [done|]].
  - destruct (prompt_of_detector_response env detection (filename file)
                technical_level Hshape) as [prompt Hprompt].
    destruct (LlmFacts.system_prompt_ok "analysis") as [system Hsys].
    assert (explain env (filename file) technical_level detection
            = Ok (<["explanation" := VStr fallback]> detection)) as Hexplain.
    { unfold explain.
      rewrite generate_analysis_explanation_prompt, Hprompt. simpl.
      rewrite (LlmFacts.generate_response_fallback env prompt "analysis" []
                 fallback system Hfb Hsys
                 (Hfail detection prompt system Hdet Hprompt Hsys)).
      reflexivity. }
    unfold deepfake_agent.
    destruct (startswith file_type "image/").
    + rewrite Hdet. exact Hexplain.
    + destruct Htype as [? | Hvideo]; [done|]. rewrite Hvideo, Hdet. exact Hexplain.
  - by rewrite !lookup_insert_ne.
Qed.

(** An image upload to a service that answers 401 to the key this
    process sends, and would answer 200 to another. *)
Lemma failed_explanation_keeps_detection_witness :
  (forall (prompt intent : string) (context : list value)
          (fallback system : string),
     FALLBACKS !! intent = Some fallback ->
     system_prompt intent = Ok system ->
     call_failed (requests_post Examples.service_keyed
                    (API_URL Examples.service_keyed)
                    (request_headers Examples.service_keyed)
                    (request_body (chat_messages system context prompt))) ->
     generate_response Examples.service_keyed prompt intent context
     = Ok (VStr fallback))
  /\ exists (detection response : gmap string value) (fallback : string),
       (if startswith "image/jpeg" "image/"
        then detect_image Examples.runtime_first_seen [[1; 2]%R]
        else detect_video Examples.runtime_first_seen [[1; 2]%R]) = Ok detection
       /\ FALLBACKS !! "analysis" = Some fallback
       /\ deepfake_agent Examples.runtime_first_seen Examples.service_keyed
            (fun _ => "uploaded_file") [[1; 2]%R] "image/jpeg" "intermediate"
          = Ok response
       /\ response = <["explanation" := VStr fallback]> detection
       /\ response !! "label" = detection !! "label"
       /\ response !! "confidence" = detection !! "confidence".
Proof.
  apply (failed_explanation_keeps_detection Examples.runtime_first_seen
           Examples.service_keyed (fun _ => "uploaded_file") [[1; 2]%R]
           "image/jpeg" "intermediate").
  - left. reflexivity.
  - intros detection prompt system _ _ _. apply error_status. simpl. lia.
Defined.

End AgentFacts.

(** ** The range of the confidences *)

Module ConfidenceFacts.
Import Detector.

Lemma sum_scaled (f : R -> R) (z : R) (l : list R) :
  Py.sum ((fun x => f x / z)%R <$> l) = (Py.sum (f <$> l) / z)%R.
Proof.
  unfold Py.sum. induction l as [|x l IH].
  - simpl. unfold Rdiv. by rewrite Rmult_0_l.
  - rewrite !fmap_cons. cbn [foldr]. rewrite IH.
    unfold Rdiv. by rewrite Rmult_plus_distr_r.
Qed.

(** The softmax scores add up to one. *)
Lemma softmax_sum (logits : list R) :
  logits <> [] -> Py.sum (softmax logits) = 1%R.
Proof.
  intros Hne. pose proof (NumericFacts.sum_exp_pos logits Hne) as Hz.
  unfold softmax. rewrite sum_scaled. field. lra.
Qed.

Lemma sum_nonneg (l : list R) :
  Forall (fun x => 0 <= x)%R l -> (0 <= Py.sum l)%R.
Proof. induction 1; simpl; lra. Qed.

Lemma elem_le_sum (l : list R) (x : R) :
  Forall (fun y => 0 <= y)%R l -> x ∈ l -> (x <= Py.sum l)%R.
Proof.
  induction 1 as [|y l Hy Hl IH]; intros Hx.
  - by apply elem_of_nil in Hx.
  - pose proof (sum_nonneg l Hl). simpl.
    apply elem_of_cons in Hx as [->|Hx]; [lra|]. specialize (IH Hx). lra.
Qed.

(** Every softmax score lies in (0, 1]. *)
Lemma softmax_range (logits : list R) (c : R) :
  c ∈ softmax logits -> (0 < c <= 1)%R.
Proof.
  intros Hc.
  assert (logits <> []) as Hne.
  { intros ->. by apply elem_of_nil in Hc. }
  pose proof (softmax_sum logits Hne) as Hsum.
  assert (Forall (fun y => 0 < y)%R (softmax logits)) as Hpos.
  { unfold softmax. apply Forall_fmap, Forall_forall. intros x _. simpl.
    apply Rdiv_lt_0_compat; [apply exp_pos|].
    by apply NumericFacts.sum_exp_pos. }
  split.
  - rewrite Forall_forall in Hpos. by apply Hpos.
  - rewrite <- Hsum. apply elem_le_sum; [|done].
    eapply Forall_impl; [exact Hpos|]. simpl. intros; lra.
Qed.

Lemma foldl_Rmax_ge_init (x : R) (l : list R) : (x <= foldl Rmax x l)%R.
Proof.
  revert x; induction l as [|y l IH]; intros x; simpl; [lra|].
  eapply Rle_trans; [apply (Rmax_l x y)|apply IH].
Qed.

Lemma foldl_Rmax_ge (x : R) (l : list R) (y : R) :
  y ∈ x :: l -> (y <= foldl Rmax x l)%R.
Proof.
  revert x; induction l as [|z l IH]; intros x Hy; simpl.
  - apply elem_of_cons in Hy as [->|Hy]; [lra|]. by apply elem_of_nil in Hy.
  - apply elem_of_cons in Hy as [->|Hy].
    + eapply Rle_trans; [apply (Rmax_l x z)|apply foldl_Rmax_ge_init].
    + apply elem_of_cons in Hy as [->|Hy].
      * eapply Rle_trans; [apply (Rmax_r x z)|apply foldl_Rmax_ge_init].
      * apply IH. by apply list_elem_of_further.
Qed.

Lemma foldl_Rmax_elem (x : R) (l : list R) : foldl Rmax x l ∈ x :: l.
Proof.
  revert x; induction l as [|z l IH]; intros x; simpl.
  - apply list_elem_of_here.
  - specialize (IH (Rmax x z)).
    apply elem_of_cons in IH as [->|IH].
    + unfold Rmax. destruct (Rle_dec x z).
      * apply list_elem_of_further, list_elem_of_here.
      * apply list_elem_of_here.
    + by do 2 apply list_elem_of_further.
Qed.

Lemma sum_le_max (l : list R) (m : R) :
  Forall (fun y => y <= m)%R l -> (Py.sum l <= INR (length l) * m)%R.
Proof.
  induction 1 as [|y l Hy _ IH]; simpl length.
  - simpl. lra.
  - rewrite S_INR. simpl. lra.
Qed.

(** The confidence of a classification over [n] classes lies between
    [1 / n] and 1. *)
Lemma tensor_max_softmax_range (logits : list R) (c : R) :
  tensor_max (softmax logits) = Ok c ->
  (0 < / INR (length logits) <= c)%R /\ (c <= 1)%R.
Proof.
  intros Hmax.
  destruct logits as [|x l]; [done|].
  assert (x :: l <> []) as Hne by done.
  pose proof (softmax_sum (x :: l) Hne) as Hsum.
  destruct (softmax (x :: l)) as [|p ps] eqn:Hs; [done|].
  simpl in Hmax. injection Hmax as <-.
  assert (length (p :: ps) = length (x :: l)) as Hlen
    by (rewrite <- Hs; unfold softmax; by rewrite length_fmap).
  assert (0 < INR (length (x :: l)))%R as Hn by (apply lt_0_INR; simpl; lia).
  assert (foldl Rmax p ps ∈ softmax (x :: l)) as Hin
    by (rewrite Hs; apply foldl_Rmax_elem).
  destruct (softmax_range _ _ Hin) as [H0 H1].
  split; [split|done].
  - by apply Rinv_0_lt_compat.
  - assert (Py.sum (p :: ps) <= INR (length (p :: ps)) * foldl Rmax p ps)%R as Hle.
    { apply sum_le_max, Forall_forall. intros y Hy. by apply foldl_Rmax_ge. }
    rewrite Hsum, Hlen in Hle.
    apply Rmult_le_reg_l with (INR (length (x :: l))); [done|].
    rewrite Rinv_r by lra. done.
Qed.

(** What [classify] returns: a label of [id2label] and a confidence
    between [1 / n] and 1, for [n] the number of classes scored. *)
Lemma classify_range (rt : Runtime) (image : Img rt) (label : string) (c : R) :
  classify rt image = Ok (label, c) ->
  exists (logits : list R) (idx : nat),
    logits_of rt image = Ok logits
    /\ id2label rt !! idx = Some label
    /\ (/ INR (length logits) <= c <= 1)%R
    /\ (0 < c)%R.
Proof.
  unfold classify. intros H.
  destruct (logits_of rt image) as [logits|e]; simpl in H; [|done].
  destruct (argmax logits) as [idx|e]; simpl in H; [|done].
  unfold dict_getitem_int in H.
  destruct (id2label rt !! idx) as [l|] eqn:Hl; simpl in H; [|done].
  destruct (tensor_max (softmax logits)) as [m|e] eqn:Hm; simpl in H; [|done].
  injection H as <- <-.
  destruct (tensor_max_softmax_range logits m Hm) as [[Hn Hlo] Hhi].
  exists logits, idx. repeat split; (done || lra).
Qed.

Lemma comprehension_inv {A B : Type} (f : A -> result B) (l : list A) (out : list B) :
  comprehension f l = Ok out -> Forall2 (fun x y => f x = Ok y) l out.
Proof.
  revert out; induction l as [|x l IH]; intros out; simpl.
  - intros [= <-]. constructor.
  - destruct (f x) as [y|e] eqn:Hx; simpl; [|done].
    destruct (comprehension f l) as [ys|e]; simpl; [|done].
    intros [= <-]. constructor; [done|]. by apply IH.
Qed.

(** The first element on which [f] raises decides the comprehension. *)
Lemma comprehension_first_failure {A B : Type} (f : A -> result B) (l : list A)
    (k : nat) (x : A) (e : exn) :
  l !! k = Some x ->
  f x = Raise e ->
  (forall (j : nat) (y : A), (j < k)%nat -> l !! j = Some y -> exists v, f y = Ok v) ->
  comprehension f l = Raise e.
Proof.
  revert k; induction l as [|a l IH]; intros k Hk Hx Hbefore; [done|].
  destruct k as [|k]; simpl in *.
  - injection Hk as ->. by rewrite Hx.
  - destruct (Hbefore 0%nat a ltac:(lia) eq_refl) as [v ->]. simpl.
    rewrite (IH k Hk Hx); [done|].
    intros j y Hj Hy. apply (Hbefore (S j) y); [lia|done].
Qed.

Lemma sum_pos (l : list R) :
  l <> [] -> Forall (fun x => 0 < x)%R l -> (0 < Py.sum l)%R.
Proof.
  intros Hne Hall. destruct Hall as [|x l Hx Hl]; [done|].
  assert (0 <= Py.sum l)%R.
  { apply sum_nonneg. eapply Forall_impl; [exact Hl|]. simpl. intros; lra. }
  simpl. lra.
Qed.

(** Lines 62-63 on predictions whose confidences lie in (0, 1]: the
    label is one of the predicted labels and the confidence lies in
    (0, 1]. *)
Lemma aggregate_range (label_set : list string) (results : list (string * R))
    (label : string) (c : R) :
  SetIteration ((fun r => r.1) <$> results) label_set ->
  Forall (fun r => 0 < r.2 <= 1)%R results ->
  aggregate label_set results = Ok (label, c) ->
  label ∈ (fun r => r.1) <$> results /\ (0 < c <= 1)%R.
Proof.
  intros (_ & Hsub & _) Hall Hagg. unfold aggregate, final_label, py_max in Hagg.
  destruct label_set as [|x rest]; [done|]. simpl in Hagg.
  set (l := max_loop (count_label results) x rest) in *.
  assert (l ∈ (fun r => r.1) <$> results) as Hin
    by apply Hsub, AggregationFacts.max_loop_elem.
  assert (results <> []) as Hne by (intros ->; by apply elem_of_nil in Hin).
  rewrite AggregationFacts.avg_confidence_value in Hagg by done. simpl in Hagg.
  injection Hagg as <- <-. split; [done|].
  set (m := filter (fun r => r.1 = l) results).
  assert (m <> []) as Hm.
  { apply list_elem_of_fmap in Hin as (r & Hr & Hrin).
    assert (r ∈ m) as Hrm by (by apply list_elem_of_filter).
    intros E. rewrite E in Hrm. by apply elem_of_nil in Hrm. }
  assert (Forall (fun r => 0 < r.2 <= 1)%R m) as Hmall.
  { apply Forall_forall. intros r Hr. apply list_elem_of_filter in Hr as [_ Hr].
    rewrite Forall_forall in Hall. by apply Hall. }
  assert (0 < Py.sum ((fun r => r.2) <$> m))%R as Hpos.
  { apply sum_pos; [by destruct m|].
    apply Forall_fmap. eapply Forall_impl; [exact Hmall|]. simpl. intros; lra. }
  assert (Py.sum ((fun r => r.2) <$> m) <= INR (length m))%R as Hle.
  { rewrite <- (length_fmap (fun r => r.2) m).
    apply AggregationFacts.sum_bounds, Forall_fmap.
    eapply Forall_impl; [exact Hmall|]. simpl. intros; lra. }
  assert (length m <= length results)%nat as Hlen by apply length_filter.
  apply le_INR in Hlen.
  assert (0 < INR (length results))%R as Hn.
  { apply lt_0_INR. destruct results; [done|simpl; lia]. }
  split.
  - by apply Rdiv_lt_0_compat.
  - apply Rmult_le_reg_r with (INR (length results)); [done|].
    unfold Rdiv. rewrite Rmult_assoc, Rinv_l by lra. lra.
Qed.

(** [detect_image] answers with an error record, or with a label of
    [id2label] and a confidence that is positive and at most 1. *)
Theorem detect_image_confidence_range (rt : Runtime) (file : Upload rt) :
  exists d : gmap string value,
    detect_image rt file = Ok d
    /\ (is_error d
        \/ exists (label : string) (c : R) (image : Img rt) (logits : list R)
                  (idx : nat),
             d = detection_record "image" label c "face_texture"
             /\ image_open rt file = Ok image
             /\ logits_of rt image = Ok logits
             /\ id2label rt !! idx = Some label
             /\ (0 < c <= 1)%R).
Proof.
  unfold detect_image.
  destruct (image_open rt file) as [image|e]; simpl.
  2:{ eexists; split; [done|]. left. by eexists. }
  destruct (classify rt image) as [[label c]|e] eqn:Hc; simpl.
  2:{ eexists; split; [done|]. left. by eexists. }
  destruct (classify_range rt image label c Hc)
    as (logits & idx & Hl & Hi & [_ Hhi] & Hpos).
  eexists; split; [done|]. right. by exists label, c, image, logits, idx.
Qed.

(** [detect_video] answers with an error record, or with a label of
    [id2label] and a confidence in (0, 1]. *)
Theorem detect_video_confidence_range (rt : Runtime) (file : Upload rt) :
  exists d : gmap string value,
    detect_video rt file = Ok d
    /\ (is_error d
        \/ exists (label : string) (c : R) (idx : nat),
             d = detection_record "video" label c "frame_consistency"
             /\ id2label rt !! idx = Some label
             /\ (0 < c <= 1)%R).
Proof.
  unfold detect_video.
  destruct (video_capture rt file) as [cap|e]; simpl.
  2:{ eexists; split; [done|]. left. by eexists. }
  rewrite DetectorFacts.frame_loop_decodable.
  destruct (comprehension (classify_frame rt) (take 10 (decodable cap)))
    as [results|e] eqn:Hres; simpl.
  2:{ eexists; split; [done|]. left. by eexists. }
  destruct (aggregate _ results) as [[label c]|e] eqn:Hagg; simpl.
  2:{ eexists; split; [done|]. left. by eexists. }
  eexists; split; [done|]. right.
  apply comprehension_inv in Hres.
  assert (Forall (fun r => (0 < r.2 <= 1)%R
                           /\ exists idx, id2label rt !! idx = Some r.1) results) as Hall.
  { clear Hagg. induction Hres as [|frame [l p] frames results Hf _ IH];
      constructor; [|exact IH].
    unfold classify_frame in Hf.
    destruct (frame_image rt frame) as [image|?]; simpl in Hf; [|done].
    destruct (classify_range rt image l p Hf) as (logits & idx & _ & Hi & Hr & Hp).
    simpl. split; [lra|by exists idx]. }
  destruct (aggregate_range _ results label c (set_order_spec rt _)) as [Hin Hc];
    [|exact Hagg|].
  { eapply Forall_impl; [exact Hall|]. by intros r [? _]. }
  apply list_elem_of_fmap in Hin as (r & -> & Hr).
  rewrite Forall_forall in Hall. destruct (Hall r Hr) as [_ [idx Hidx]].
  by exists r.1, c, idx.
Qed.

(** When every prediction carries the same label, the confidence is
    the arithmetic mean of all confidences. *)
Theorem unanimous_confidence_is_mean (label_set : list string)
    (results : list (string * R)) (l : string) :
  results <> [] ->
  Forall (fun r => r.1 = l) results ->
  SetIteration ((fun r => r.1) <$> results) label_set ->
  aggregate label_set results
    = Ok (l, (Py.sum ((fun r => r.2) <$> results) / INR (length results))%R)
  /\ mean_of_matching results l
     = (Py.sum ((fun r => r.2) <$> results) / INR (length results))%R.
Proof.
  intros Hne Hall (_ & Hsub & Hsup).
  assert (filter (fun r => r.1 = l) results = results) as Hfilter.
  { clear -Hall. induction Hall as [|r results Hr _ IH]; [done|].
    rewrite filter_cons. destruct (decide (r.1 = l)); [|done]. by rewrite IH. }
  split.
  - unfold aggregate, final_label, py_max.
    destruct label_set as [|x rest].
    { destruct results as [|r results]; [done|].
      specialize (Hsup r.1). rewrite fmap_cons in Hsup.
      specialize (Hsup (list_elem_of_here _ _)). by apply elem_of_nil in Hsup. }
    assert (max_loop (count_label results) x rest = l) as ->.
    { pose proof (AggregationFacts.max_loop_elem (count_label results) x rest) as Hin.
      apply Hsub, list_elem_of_fmap in Hin as (r & -> & Hr).
      rewrite Forall_forall in Hall. by apply Hall. }
    simpl. rewrite AggregationFacts.avg_confidence_value by done. simpl.
    by rewrite Hfilter.
  - unfold mean_of_matching, count_label. by rewrite Hfilter.
Qed.

Lemma unanimous_confidence_is_mean_witness :
  aggregate ["A"] [("A", 9 / 10); ("A", 7 / 10)]%R
    = Ok ("A", (Py.sum ((fun r => r.2) <$> [("A", 9 / 10); ("A", 7 / 10)])
                / INR (length [("A", 9 / 10); ("A", 7 / 10)]))%R)
  /\ mean_of_matching [("A", 9 / 10); ("A", 7 / 10)]%R "A"
     = (Py.sum ((fun r => r.2) <$> [("A", 9 / 10); ("A", 7 / 10)])
        / INR (length [("A", 9 / 10); ("A", 7 / 10)]))%R.
Proof.
  apply (unanimous_confidence_is_mean ["A"] [("A", 9 / 10); ("A", 7 / 10)]%R "A").
  - discriminate.
  - by repeat constructor.
  - apply (bool_decide_eq_true_1 _). reflexivity.
Defined.

(** When one of the first ten frames cannot be classified,
    [detect_video] answers with the error of the first such frame: the
    predictions of the other frames are dropped. *)
Theorem detect_video_fails_on_first_bad_frame (rt : Runtime) (file : Upload rt)
    (cap : VideoCapture (BgrFrame rt)) (k : nat) (frame : BgrFrame rt) (e : exn) :
  video_capture rt file = Ok cap ->
  (k < 10)%nat ->
  decodable cap !! k = Some frame ->
  classify_frame rt frame = Raise e ->
  (forall (j : nat) (f : BgrFrame rt),
     (j < k)%nat -> decodable cap !! j = Some f ->
     exists p, classify_frame rt f = Ok p) ->
  detect_video rt file
  = Ok (error_record ("Video detection failed: " +:+ exn_str e)).
Proof.
  intros Hcap Hk Hframe Hfail Hbefore. unfold detect_video.
  rewrite Hcap. simpl. rewrite DetectorFacts.frame_loop_decodable.
  rewrite (comprehension_first_failure _ _ k frame e); [done| |done|].
  - by rewrite lookup_take_lt.
  - intros j f Hj Hf. rewrite lookup_take_lt in Hf by lia. by apply (Hbefore j).
Qed.

(** A video whose second frame the model scores with no class. *)
Lemma detect_video_fails_on_first_bad_frame_witness :
  detect_video Examples.runtime_first_seen [[1%R]; []; [1%R]]
  = Ok (error_record
          ("Video detection failed: "
           +:+ "argmax(): Expected reduction dim to have non-zero size.")).
Proof.
  apply (detect_video_fails_on_first_bad_frame Examples.runtime_first_seen
           [[1%R]; []; [1%R]]
           {| isOpened := true; stream := [[1%R]; []; [1%R]] |} 1 []
           (Exn "IndexError" "argmax(): Expected reduction dim to have non-zero size."));
    try reflexivity; [lia|].
  intros j f Hj Hf. assert (j = 0%nat) as -> by lia.
  simpl in Hf. injection Hf as <-. eexists. reflexivity.
Defined.

End ConfidenceFacts.

(** ** More on the explanation layer *)

Module ExplanationFacts.
Import Detector LlmService Agent.

(** Line 43 for an intent without fallback text: the look-up of the
    default raises, if nothing raised before. *)
Lemma completion_text_unknown (data : value) (intent : string) :
  FALLBACKS !! intent = None ->
  exists e : exn, completion_text data intent = Raise e.
Proof.
  intros Hfb. unfold completion_text, dict_getitem. rewrite Hfb.
  destruct (value_get data "choices" (VList [VDict ∅])) as [choices|e]; simpl; eauto.
  destruct (subscript0 choices) as [choice|e]; simpl; eauto.
  destruct (value_get choice "message" (VDict ∅)) as [msg|e]; simpl; eauto.
  destruct (get_method msg) as [get|e]; simpl; eauto.
Qed.

(** An intent outside the four categories makes [generate_response]
    raise [KeyError], whatever the service answers: the system prompt
    has a default, the fallback text has none. *)
Theorem unknown_intent_always_raises (env : Env) (prompt intent : string)
    (context : list value) :
  FALLBACKS !! intent = None ->
  generate_response env prompt intent context = Raise (KeyError intent).
Proof.
  intros Hfb. unfold generate_response.
  destruct (LlmFacts.system_prompt_ok intent) as [system ->]. simpl.
  assert (dict_getitem FALLBACKS intent = Raise (KeyError intent)) as Hkey
    by (unfold dict_getitem; by rewrite Hfb).
  destruct (requests_post env _ _ _) as [r|e]; simpl; [|by rewrite Hkey].
  destruct (raise_for_status r); simpl; [|by rewrite Hkey].
  destruct (json r) as [data|e]; simpl; [|by rewrite Hkey].
  destruct (completion_text_unknown data intent Hfb) as [e ->]. simpl.
  by rewrite Hkey.
Qed.

Lemma unknown_intent_always_raises_witness :
  generate_response Examples.service_200 "Is this video real?" "forensic" []
  = Raise (KeyError "forensic").
Proof.
  apply (unknown_intent_always_raises Examples.service_200 "Is this video real?"
           "forensic" []).
  reflexivity.
Defined.

(** With one of the four intents [generate_response] returns a value. *)
Lemma generate_response_ok (env : Env) (prompt intent : string)
    (context : list value) (fallback : string) :
  FALLBACKS !! intent = Some fallback ->
  exists v : value, generate_response env prompt intent context = Ok v.
Proof.
  intros Hfb. unfold generate_response.
  destruct (LlmFacts.system_prompt_ok intent) as [system ->]. simpl.
  unfold dict_getitem at 1. rewrite Hfb.
  destruct (requests_post env _ _ _) as [r|e]; simpl; [|eauto].
  destruct (raise_for_status r); simpl; [|eauto].
  destruct (json r) as [data|e]; simpl; [|eauto].
  destruct (completion_text data intent); simpl; eauto.
Qed.

(** For each of the four intents [generate_response] never raises: it
    returns the fallback text of the intent, or the completion found at
    [choices[0].message.content] of a response that passed
    [raise_for_status]. *)
Theorem known_intent_never_raises (env : Env) (prompt intent : string)
    (context : list value) (fallback : string) :
  FALLBACKS !! intent = Some fallback ->
  exists v : value,
    generate_response env prompt intent context = Ok v
    /\ (v = VStr fallback
        \/ exists (system : string) (r : Response) (data : value),
             system_prompt intent = Ok system
             /\ requests_post env (API_URL env) (request_headers env)
                  (request_body (chat_messages system context prompt)) = Ok r
             /\ ~ (400 <= status_code r < 600)
             /\ json r = Ok data
             /\ completion_content data = Some v).
Proof.
  intros Hfb. unfold generate_response.
  destruct (LlmFacts.system_prompt_ok intent) as [system Hsys]. rewrite Hsys. simpl.
  unfold dict_getitem at 1. rewrite Hfb.
  destruct (requests_post env _ _ _) as [r|e] eqn:Hpost; simpl; [|eauto].
  unfold raise_for_status.
  destruct ((400 <=? status_code r) && (status_code r <? 600)) eqn:Hstatus; simpl;
    [eauto|].
  destruct (json r) as [data|e] eqn:Hjson; simpl; [|eauto].
  destruct (completion_content data) as [v|] eqn:Hcontent.
  - rewrite (LlmFacts.completion_text_some data v intent fallback Hfb Hcontent).
    simpl. exists v. split; [done|]. right. exists system, r, data.
    repeat split; try done. lia.
  - destruct (LlmFacts.completion_text_none data intent fallback Hfb Hcontent)
      as [->|[e ->]]; simpl; eauto.
Qed.

Lemma known_intent_never_raises_witness :
  exists v : value,
    generate_response Examples.service_500 "What is a deepfake?" "educational" []
    = Ok v
    /\ (v = VStr "Advanced computer vision and ML techniques were used, including facial landmarks, texture patterns, and frequency-based filters."
        \/ exists (system : string) (r : Response) (data : value),
             system_prompt "educational" = Ok system
             /\ requests_post Examples.service_500 (API_URL Examples.service_500)
                  (request_headers Examples.service_500)
                  (request_body (chat_messages system [] "What is a deepfake?"))
                = Ok r
             /\ ~ (400 <= status_code r < 600)
             /\ json r = Ok data
             /\ completion_content data = Some v).
Proof.
  apply (known_intent_never_raises Examples.service_500 "What is a deepfake?"
           "educational" []).
  reflexivity.
Defined.

Lemma last6_app {A : Type} (older recent : list A) :
  (6 <= length recent)%nat -> last6 (older ++ recent) = last6 recent.
Proof.
  intros Hlen. unfold last6. rewrite length_app.
  replace (length older + length recent - 6)%nat
    with (length older + (length recent - 6))%nat by lia.
  by rewrite drop_app_add.
Qed.

(** The context window.  The request that [generate_response] sends
    holds the system prompt of the intent, then the last six messages
    of the context (all of them when there are no more than six), then
    the prompt as the user's message, and nothing of what precedes the
    last six: those messages do not change the result. *)
Theorem last_six_context_messages_are_sent (env : Env) (prompt intent : string)
    (older recent : list value) (system : string) :
  system_prompt intent = Ok system ->
  length recent = 6%nat \/ (older = [] /\ (length recent <= 6)%nat) ->
  generate_response env prompt intent (older ++ recent)
  = try_except
      (response ← requests_post env (API_URL env) (request_headers env)
                    (request_body (message "system" system
                                     :: recent ++ [message "user" prompt]));
       _ ← raise_for_status response;
       data ← json response;
       completion_text data intent)
      (fun e => fallback ← dict_getitem FALLBACKS intent; Ok (VStr fallback))
  /\ generate_response env prompt intent (older ++ recent)
     = generate_response env prompt intent recent.
Proof.
  intros Hsys Hwindow.
  assert (last6 recent = recent) as Hrecent.
  { unfold last6.
    replace (length recent - 6)%nat with 0%nat by (destruct Hwindow; lia).
    done. }
  assert (last6 (older ++ recent) = recent) as Hlast.
  { destruct Hwindow as [Hsix|[-> _]]; [|done].
    rewrite last6_app by lia. done. }
  unfold generate_response, chat_messages.
  rewrite Hsys, Hlast, Hrecent. simpl. done.
Qed.

(** Seven messages of context: the first is left out. *)
Lemma last_six_context_messages_are_sent_witness :
  generate_response Examples.service_echo "And this one?" "conversational"
    ([message "user" "first question"] ++ replicate 6 (message "user" "hello"))
  = try_except
      (response ← requests_post Examples.service_echo
                    (API_URL Examples.service_echo)
                    (request_headers Examples.service_echo)
                    (request_body
                       (message "system"
                          (default "" (SYSTEM_PROMPTS !! "conversational"))
                          :: replicate 6 (message "user" "hello")
                          ++ [message "user" "And this one?"]));
       _ ← raise_for_status response;
       data ← json response;
       completion_text data "conversational")
      (fun e => fallback ← dict_getitem FALLBACKS "conversational";
                Ok (VStr fallback))
  /\ generate_response Examples.service_echo "And this one?" "conversational"
       ([message "user" "first question"] ++ replicate 6 (message "user" "hello"))
     = generate_response Examples.service_echo "And this one?" "conversational"
         (replicate 6 (message "user" "hello")).
Proof.
  apply (last_six_context_messages_are_sent Examples.service_echo "And this one?"
           "conversational" [message "user" "first question"]
           (replicate 6 (message "user" "hello"))
           (default "" (SYSTEM_PROMPTS !! "conversational"))).
  - reflexivity.
  - left. reflexivity.
Defined.

End ExplanationFacts.

(** ** The prompt, the agent and the routes *)

Module PromptFacts.
Import Detector LlmService Agent.

Lemma or_else_nonempty (s dflt : string) : s <> "" -> or_else s dflt = s.
Proof. intros Hs. unfold or_else. by destruct (decide (s = "")). Qed.

Lemma append_nonempty (s t : string) : t <> "" -> s +:+ t <> "".
Proof. intros Ht. destruct s; [done|discriminate]. Qed.

(** The prompt for a detection: the classification is decided by the
    lower-cased label, the confidence is shown as [confidence * 100],
    and the score of the artifact, which the detector stored as
    [confidence * 100], is multiplied by 100 once more. *)
Theorem detection_prompt_scales_score_twice (env : Env)
    (type label : string) (confidence : R) (artifact : string)
    (filename technical_level : string) :
  generate_analysis_explanation env
    (detection_record type label confidence artifact) filename technical_level
  = generate_response env
      (analysis_prompt filename
         (if decide (lower label = "fake")
          then "DEEPFAKE DETECTED" else "AUTHENTIC CONTENT")
         (format_1f env (confidence * 100))
         (or_else artifact "None detected")
         (str env (VStr artifact) +:+ ": "
            +:+ format_1f env (confidence * 100 * 100) +:+ "%")
         technical_level)
      "analysis" [].
Proof.
  transitivity
    (generate_response env
       (analysis_prompt filename
          (if decide (lower label = "fake")
           then "DEEPFAKE DETECTED" else "AUTHENTIC CONTENT")
          (format_1f env (confidence * 100))
          (or_else artifact "None detected")
          (or_else (str env (VStr artifact) +:+ ": "
                      +:+ format_1f env (confidence * 100 * 100) +:+ "%")
             "No artifacts to report.")
          technical_level)
       "analysis" []); [reflexivity|].
  rewrite (or_else_nonempty (_ +:+ ": " +:+ _)); [done|].
  apply append_nonempty. discriminate.
Qed.

(** The prompt for a failed detection. *)
Lemma error_prompt (env : Env) (message filename technical_level : string) :
  generate_analysis_explanation env (error_record message) filename technical_level
  = generate_response env
      (analysis_prompt filename "AUTHENTIC CONTENT" (format_1f env (0 * 100))
         "None detected" "No artifacts to report." technical_level)
      "analysis" [].
Proof. reflexivity. Qed.

(** The agent on an image or a video, given the detector's response. *)
Lemma deepfake_agent_explain (rt : Runtime) (env : Env)
    (filename : Upload rt -> string) (file : Upload rt)
    (file_type technical_level : string) (detection : gmap string value) :
  (startswith file_type "image/" = true /\ detect_image rt file = Ok detection)
  \/ (startswith file_type "image/" = false
      /\ startswith file_type "video/" = true
      /\ detect_video rt file = Ok detection) ->
  deepfake_agent rt env filename file file_type technical_level
  = explain env (filename file) technical_level detection.
Proof.
  unfold deepfake_agent.
  intros [[-> ->]|(-> & -> & ->)]; reflexivity.
Qed.

(** A failed detection is explained all the same: the agent asks for a
    report on a file classified as authentic with confidence 0 and no
    artifact, and returns the error together with that report. *)
Theorem failed_detection_is_explained_as_authentic (rt : Runtime) (env : Env)
    (filename : Upload rt -> string) (file : Upload rt)
    (file_type technical_level message : string) :
  (startswith file_type "image/" = true
   /\ detect_image rt file = Ok (error_record message))
  \/ (startswith file_type "image/" = false
      /\ startswith file_type "video/" = true
      /\ detect_video rt file = Ok (error_record message)) ->
  exists explanation : value,
    generate_response env
      (analysis_prompt (filename file) "AUTHENTIC CONTENT"
         (format_1f env (0 * 100)) "None detected" "No artifacts to report."
         technical_level)
      "analysis" [] = Ok explanation
    /\ deepfake_agent rt env filename file file_type technical_level
       = Ok (<["explanation" := explanation]> (error_record message)).
Proof.
  intros Hdet.
  rewrite (deepfake_agent_explain rt env filename file file_type technical_level
             (error_record message) Hdet).
  unfold explain. rewrite error_prompt.
  destruct (ExplanationFacts.generate_response_ok env
              (analysis_prompt (filename file) "AUTHENTIC CONTENT"
                 (format_1f env (0 * 100)) "None detected"
                 "No artifacts to report." technical_level)
              "analysis" [] _ eq_refl) as (v & Hv).
  exists v. split; [done|]. by rewrite Hv.
Qed.

(** An upload that is no image, sent as [image/png]. *)
Lemma failed_detection_is_explained_as_authentic_witness :
  exists explanation : value,
    generate_response Examples.service_200
      (analysis_prompt "uploaded_file" "AUTHENTIC CONTENT"
         (format_1f Examples.service_200 (0 * 100)) "None detected"
         "No artifacts to report." "basic")
      "analysis" [] = Ok explanation
    /\ deepfake_agent Examples.runtime_first_seen Examples.service_200
         (fun _ => "uploaded_file") [] "image/png" "basic"
       = Ok (<["explanation" := explanation]>
               (error_record "Image detection failed: cannot identify image file")).
Proof.
  apply (failed_detection_is_explained_as_authentic Examples.runtime_first_seen
           Examples.service_200 (fun _ => "uploaded_file") [] "image/png" "basic"
           "Image detection failed: cannot identify image file").
  left. split; reflexivity.
Defined.

(** The agent on an image or a video returns the detector's response
    with an explanation from [generate_response]. *)
Lemma explain_detector_response (env : Env) (filename technical_level : string)
    (detection : gmap string value) :
  detector_response detection ->
  exists (prompt : string) (explanation : value),
    generate_response env prompt "analysis" [] = Ok explanation
    /\ explain env filename technical_level detection
       = Ok (<["explanation" := explanation]> detection).
Proof.
  intros Hshape.
  destruct (AgentFacts.explanation_of_detector_response env detection filename
              technical_level Hshape) as [prompt Hprompt].
  destruct (ExplanationFacts.generate_response_ok env prompt "analysis" [] _
              eq_refl) as (v & Hv).
  exists prompt, v. split; [done|]. unfold explain. by rewrite Hprompt, Hv.
Qed.

Lemma deepfake_agent_ok (rt : Runtime) (env : Env)
    (filename : Upload rt -> string) (file : Upload rt)
    (file_type technical_level : string) :
  exists response : gmap string value,
    deepfake_agent rt env filename file file_type technical_level = Ok response.
Proof.
  unfold deepfake_agent.
  destruct (startswith file_type "image/").
  - destruct (AgentFacts.detect_image_response rt file) as (d & -> & Hshape).
    destruct (explain_detector_response env (filename file) technical_level d
                Hshape) as (prompt & v & _ & Hv).
    simpl. eauto.
  - destruct (startswith file_type "video/"); [|eauto].
    destruct (AgentFacts.detect_video_response rt file) as (d & -> & Hshape).
    destruct (explain_detector_response env (filename file) technical_level d
                Hshape) as (prompt & v & _ & Hv).
    simpl. eauto.
Qed.

(** [deepfake_agent] raises only when [file_type] is [None], the
    [AttributeError] of line 18.  For a type that is a string it never
    raises: when the type is neither image nor video it returns the
    error record alone; otherwise it returns the detector's response,
    be it a detection or an error, with an explanation that
    [generate_response] returned for the intent "analysis": the agent's
    own replacement text is never needed. *)
Theorem deepfake_agent_raises_only_without_type (rt : Runtime) (env : Env)
    (filename : Upload rt -> string) (file : Upload rt)
    (file_type : option string) (technical_level : string) :
  match file_type with
  | None =>
      deepfake_agent_dyn rt env filename file file_type technical_level
      = Raise (AttributeError "'NoneType' object has no attribute 'startswith'")
  | Some t =>
      exists response : gmap string value,
        deepfake_agent_dyn rt env filename file file_type technical_level
        = Ok response
        /\ ((startswith t "image/" = false
             /\ startswith t "video/" = false
             /\ response = error_record "Unsupported file type")
            \/ exists (detection : gmap string value) (prompt : string)
                 (explanation : value),
                 (startswith t "image/" = true \/ startswith t "video/" = true)
                 /\ (if startswith t "image/"
                     then detect_image rt file else detect_video rt file)
                    = Ok detection
                 /\ detector_response detection
                 /\ generate_response env prompt "analysis" [] = Ok explanation
                 /\ response = <["explanation" := explanation]> detection)
  end.
Proof.
  destruct file_type as [t|]; [|reflexivity]. simpl.
  destruct (startswith t "image/") eqn:Himage.
  - destruct (AgentFacts.detect_image_response rt file) as (detection & Hdet & Hshape).
    rewrite (deepfake_agent_explain rt env filename file t technical_level
               detection) by auto.
    destruct (explain_detector_response env (filename file) technical_level
                detection Hshape) as (prompt & v & Hv & ->).
    eexists. split; [done|]. right. exists detection, prompt, v. auto 10.
  - destruct (startswith t "video/") eqn:Hvideo.
    + destruct (AgentFacts.detect_video_response rt file)
        as (detection & Hdet & Hshape).
      rewrite (deepfake_agent_explain rt env filename file t
                 technical_level detection) by auto.
      destruct (explain_detector_response env (filename file) technical_level
                  detection Hshape) as (prompt & v & Hv & ->).
      eexists. split; [done|]. right. exists detection, prompt, v. auto 10.
    + unfold deepfake_agent. rewrite Himage, Hvideo.
      eexists. split; [done|]. left. auto.
Qed.

End PromptFacts.

Module AppFacts.
Import Detector LlmService Agent App.

(** An upload over the size limit: the exception of [request.files]
    leaves both views. *)
Example oversized_upload_leaves_the_views (rt : Runtime) (env : Env)
    (filename : Upload rt -> string)
    (content_type : Upload rt -> option string) :
  detect rt content_type (Raise RequestEntityTooLarge)
  = Raise RequestEntityTooLarge
  /\ agent_detect rt env filename content_type (Raise RequestEntityTooLarge)
     = Raise RequestEntityTooLarge.
Proof. split; reflexivity. Qed.

(** [/api/detect].  When reading [request.files] raises (a body over
    the size limit), the view raises the same exception, the read being
    outside the [try].  Otherwise it answers: 400 without a file or for
    a type that is neither image nor video, 500 when the upload has no
    content type, and 200 otherwise, with the detector's response as
    body, also when that response is an error. *)
Theorem detect_route_status (rt : Runtime)
    (content_type : Upload rt -> option string)
    (request_files : result (option (Upload rt))) :
  match request_files with
  | Raise e => detect rt content_type request_files = Raise e
  | Ok files =>
      exists response : HttpResponse,
        detect rt content_type request_files = Ok response
        /\ ((status response = 400
             /\ ((files = None /\ body response = error_record "No file uploaded")
                 \/ exists (file : Upload rt) (t : string),
                      files = Some file /\ content_type file = Some t
                      /\ startswith t "image/" = false
                      /\ startswith t "video/" = false
                      /\ body response = error_record "Unsupported file type"))
            \/ (status response = 500
                /\ exists file : Upload rt,
                     files = Some file /\ content_type file = None
                     /\ body response
                        = error_record
                            "'NoneType' object has no attribute 'startswith'")
            \/ (status response = 200
                /\ exists (file : Upload rt) (t : string),
                     files = Some file /\ content_type file = Some t
                     /\ (startswith t "image/" = true
                         \/ startswith t "video/" = true)
                     /\ (if startswith t "image/"
                         then detect_image rt file else detect_video rt file)
                        = Ok (body response)
                     /\ detector_response (body response)))
  end.
Proof.
  destruct request_files as [files|e]; [|reflexivity].
  destruct files as [file|]; simpl.
  2:{ eexists. split; [done|]. left. simpl. auto. }
  destruct (content_type file) as [t|] eqn:Htype; simpl.
  2:{ eexists. split; [done|]. right. left. simpl. split; [done|].
      exists file. auto. }
  destruct (startswith t "image/") eqn:Himage.
  - destruct (AgentFacts.detect_image_response rt file) as (d & Hd & Hshape).
    rewrite Hd. simpl. eexists. split; [done|]. right. right. simpl.
    split; [done|]. exists file, t. rewrite Himage. auto 10.
  - destruct (startswith t "video/") eqn:Hvideo.
    + destruct (AgentFacts.detect_video_response rt file) as (d & Hd & Hshape).
      rewrite Hd. simpl. eexists. split; [done|]. right. right. simpl.
      split; [done|]. exists file, t. rewrite Himage. auto 10.
    + simpl. eexists. split; [done|]. left. simpl. split; [done|]. right.
      exists file, t. auto 10.
Qed.

(** The two routes disagree on an unsupported type: [/api/detect]
    answers 400, [/api/agent-detect] answers 200, both with the body
    [{"error": "Unsupported file type"}]. *)
Theorem unsupported_type_400_versus_200 (rt : Runtime) (env : Env)
    (filename : Upload rt -> string)
    (content_type : Upload rt -> option string)
    (file : Upload rt) (t : string) :
  content_type file = Some t ->
  startswith t "image/" = false ->
  startswith t "video/" = false ->
  detect rt content_type (Ok (Some file))
  = Ok (jsonify (error_record "Unsupported file type") 400)
  /\ agent_detect rt env filename content_type (Ok (Some file))
     = Ok (jsonify (error_record "Unsupported file type") 200).
Proof.
  intros Htype Himage Hvideo.
  unfold detect, agent_detect, call_deepfake_agent, deepfake_agent_dyn,
    deepfake_agent.
  simpl. rewrite Htype. simpl. by rewrite Himage, Hvideo.
Qed.

Lemma unsupported_type_400_versus_200_witness :
  detect Examples.runtime_first_seen (fun _ => Some "text/plain") (Ok (Some []))
  = Ok (jsonify (error_record "Unsupported file type") 400)
  /\ agent_detect Examples.runtime_first_seen Examples.service_200
       (fun _ => "notes.txt") (fun _ => Some "text/plain") (Ok (Some []))
     = Ok (jsonify (error_record "Unsupported file type") 200).
Proof.
  apply (unsupported_type_400_versus_200 Examples.runtime_first_seen
           Examples.service_200 (fun _ => "notes.txt")
           (fun _ => Some "text/plain") [] "text/plain");
    reflexivity.
Defined.

(** [/api/agent-detect].  When reading [request.files] raises (a body
    over the size limit), the view raises the same exception.
    Otherwise it answers: 400 only without a file, 500 only when the
    upload has no content type, and 200 with the agent's result for
    every other upload. *)
Theorem agent_detect_route_status (rt : Runtime) (env : Env)
    (filename : Upload rt -> string)
    (content_type : Upload rt -> option string)
    (request_files : result (option (Upload rt))) :
  match request_files with
  | Raise e => agent_detect rt env filename content_type request_files = Raise e
  | Ok files =>
      exists response : HttpResponse,
        agent_detect rt env filename content_type request_files = Ok response
        /\ ((status response = 400
             /\ files = None /\ body response = error_record "No file uploaded")
            \/ (status response = 500
                /\ exists file : Upload rt,
                     files = Some file /\ content_type file = None
                     /\ body response
                        = error_record
                            "'NoneType' object has no attribute 'startswith'")
            \/ (status response = 200
                /\ exists (file : Upload rt) (t : string),
                     files = Some file /\ content_type file = Some t
                     /\ deepfake_agent rt env filename file t "intermediate"
                        = Ok (body response)))
  end.
Proof.
  destruct request_files as [files|e]; [|reflexivity].
  destruct files as [file|]; simpl.
  2:{ eexists. split; [done|]. left. simpl. auto. }
  unfold call_deepfake_agent, deepfake_agent_dyn.
  destruct (content_type file) as [t|] eqn:Htype; simpl.
  2:{ eexists. split; [done|]. right. left. simpl. split; [done|].
      exists file. auto. }
  destruct (PromptFacts.deepfake_agent_ok rt env filename file t "intermediate")
    as (d & Hd).
  rewrite Hd. simpl. eexists. split; [done|]. right. right. simpl.
  split; [done|]. exists file, t. auto.
Qed.

End AppFacts.

(** ** The video pipeline: sampling into the model, records, directory
       runs and the summary *)

Module VideoRunFacts.
Import DeepfakeVideos.

Lemma read_loop_app (self : DeepfakeDetector) (cap : list (RawFrame self))
    (frames : list (Frame self)) :
  read_loop self cap frames = frames ++ (cvtColor self <$> cap).
Proof.
  revert frames; induction cap as [|x cap IH]; intros frames; simpl.
  - by rewrite app_nil_r.
  - by rewrite IH, <- app_assoc.
Qed.

(** Indexing with indices that are all in range. *)
Lemma comprehension_getitem {A : Type} (frames : list A) (idx : list Z) :
  Forall (fun k => 0 <= k < Z.of_nat (length frames)) idx ->
  exists out : list A,
    comprehension (getitem frames) idx = Ok out
    /\ length out = length idx
    /\ forall x : A, x ∈ out -> x ∈ frames.
Proof.
  induction 1 as [|k idx Hk _ (out & Ho & Hlen & Hin)].
  - exists []. split; [done|]. split; [done|].
    intros x Hx. by apply elem_of_nil in Hx.
  - destruct (lookup_lt_is_Some_2 frames (Z.to_nat k)) as [x Hx]; [lia|].
    exists (x :: out). split; [|split].
    + simpl. rewrite <- (Z2Nat.id k) at 1 by lia.
      rewrite (getitem_nat _ _ _ Hx). simpl. by rewrite Ho.
    + simpl. by rewrite Hlen.
    + intros y Hy. apply elem_of_cons in Hy as [->|Hy]; [|by apply Hin].
      by eapply list_elem_of_lookup_2.
Qed.

(** The indices of the sampler are in range, and there are as many as
    requested. *)
Lemma subsample_indices_in_range (fp : Rounding) (total_frames : nat) (N : Z) :
  (1 <= total_frames)%nat ->
  0 <= N ->
  Z.of_nat total_frames <= N
  \/ (Z.of_nat total_frames <= 2 ^ 53 /\ (2 * IZR N * IZR N * eps fp <= 1)%R) ->
  exists idx : list Z,
    subsample_indices fp total_frames N = Ok idx
    /\ Z.of_nat (length idx) = N
    /\ Forall (fun k => 0 <= k < Z.of_nat total_frames) idx.
Proof.
  intros H1 H0 Hcase.
  destruct (decide (Z.of_nat total_frames <= N)) as [Hshort|Hlong].
  { eexists. split; [by apply SamplerFacts.subsample_indices_short|]. split.
    - rewrite length_app, length_replicate, range_length. lia.
    - apply Forall_app. split.
      + apply Forall_forall. intros k Hk.
        apply list_elem_of_lookup in Hk as [j Hj].
        pose proof (lookup_lt_Some _ _ _ Hj) as Hlt. rewrite range_length in Hlt.
        rewrite range_lookup in Hj by done. injection Hj as <-. lia.
      + apply Forall_replicate. lia. }
  destruct Hcase as [?|[HF Heps]]; [done|].
  set (F := Z.of_nat total_frames) in *.
  eexists. split; [apply SamplerFacts.subsample_indices_long; lia|]. split.
  { rewrite length_fmap, range_length. lia. }
  apply Forall_forall. intros a Ha.
  apply list_elem_of_fmap in Ha as (k & -> & Hk).
  apply list_elem_of_lookup in Hk as [i Hi].
  pose proof (lookup_lt_Some _ _ _ Hi) as Hlt. rewrite range_length in Hlt.
  rewrite range_lookup in Hi by done. injection Hi as <-.
  fold F.
  destruct (decide (2 <= N)) as [H2|H2].
  - split.
    + apply (SamplerFacts.sample_floor_nonneg fp F N); (done || lia).
    + destruct (decide (Z.of_nat i = N - 1)) as [->|Hne].
      * rewrite (SamplerFacts.sample_last fp F N), ZfloorZ by (done || lia). lia.
      * pose proof (SamplerFacts.sample_floor_lt fp F N ltac:(lia) HF H2 Heps
                      (Z.of_nat i) (N - 1) ltac:(lia) ltac:(lia) ltac:(lia)) as Hlast.
        rewrite (SamplerFacts.sample_last fp F N), ZfloorZ in Hlast by (done || lia).
        lia.
  - assert (N = 1) as -> by lia. assert (i = 0%nat) as -> by lia.
    change (Z.of_nat 0) with 0.
    rewrite (SamplerFacts.sample_single fp F 1), ZfloorZ by (done || lia). lia.
Qed.

(** Whatever the length of the video, [preprocess_video] hands the
    model exactly [num_frames] frames, each of them a converted frame
    of the video: a short video is padded, a long one is sampled.  (For
    a long video the sizes are those for which float64 arithmetic keeps
    the samples of [np.linspace] in range.) *)
Theorem preprocess_video_feeds_num_frames (self : DeepfakeDetector)
    (video_path : string) :
  capture self video_path <> [] ->
  0 <= num_frames self ->
  Z.of_nat (length (capture self video_path)) <= num_frames self
  \/ (Z.of_nat (length (capture self video_path)) <= 2 ^ 53
      /\ (2 * IZR (num_frames self) * IZR (num_frames self) * eps (float64 self)
          <= 1)%R) ->
  exists sampled : list (Frame self),
    preprocess_video self video_path = to_tensor self sampled
    /\ Z.of_nat (length sampled) = num_frames self
    /\ forall x : Frame self,
         x ∈ sampled ->
         exists raw : RawFrame self,
           raw ∈ capture self video_path /\ x = cvtColor self raw.
Proof.
  intros Hcap H0 Hcase. unfold preprocess_video.
  rewrite read_loop_app. simpl.
  set (frames := cvtColor self <$> capture self video_path).
  assert (length frames = length (capture self video_path)) as Hlen
    by apply length_fmap.
  assert (1 <= length frames)%nat as H1.
  { rewrite Hlen. destruct (capture self video_path); [done|simpl; lia]. }
  destruct (Nat.eqb_spec (length frames) 0) as [E|_]; [lia|].
  destruct (subsample_indices_in_range (float64 self) (length frames)
              (num_frames self) H1 H0) as (idx & Hidx & HN & Hrange).
  { by rewrite Hlen. }
  destruct (comprehension_getitem frames idx Hrange) as (out & Hout & Hl & Hin).
  exists out. split; [|split].
  - unfold uniform_temporal_subsample. rewrite Hidx. simpl. by rewrite Hout.
  - by rewrite Hl.
  - intros x Hx. apply Hin in Hx. unfold frames in Hx.
    apply list_elem_of_fmap in Hx as (raw & -> & Hraw). eauto.
Qed.

(** A video of three frames for a model that expects sixteen. *)
Lemma preprocess_video_feeds_num_frames_witness :
  exists sampled : list (Frame Examples.detector),
    preprocess_video Examples.detector "a.mp4"
    = to_tensor Examples.detector sampled
    /\ Z.of_nat (length sampled) = num_frames Examples.detector
    /\ forall x : Frame Examples.detector,
         x ∈ sampled ->
         exists raw : RawFrame Examples.detector,
           raw ∈ capture Examples.detector "a.mp4"
           /\ x = cvtColor Examples.detector raw.
Proof.
  apply (preprocess_video_feeds_num_frames Examples.detector "a.mp4").
  - simpl. discriminate.
  - simpl. lia.
  - left. simpl. lia.
Defined.

(** The two outcomes of [predict_single_video]. *)
Lemma predict_single_video_cases (self : DeepfakeDetector) (video_path : string) :
  exists r : gmap string value,
    predict_single_video self video_path = Ok r
    /\ ((exists message : string, r = error_result video_path message)
        \/ exists (label : string) (c : R) (idx : nat) (logits : list R),
             r = prediction_record video_path label c idx (softmax logits) logits
             /\ argmax logits = Ok idx
             /\ tensor_max (softmax logits) = Ok c
             /\ ((id2label self = ∅
                  /\ label = if (idx =? 1)%nat then "FAKE" else "REAL")
                 \/ id2label self !! idx = Some label)).
Proof.
  unfold predict_single_video.
  destruct (preprocess_video self video_path) as [pixel|e]; simpl; [|by eauto].
  destruct (forward self pixel) as [logits|e]; simpl; [|by eauto].
  destruct (argmax logits) as [idx|e] eqn:Hidx; simpl; [|by eauto].
  destruct (tensor_max (softmax logits)) as [c|e] eqn:Hc; simpl; [|by eauto].
  destruct (decide (id2label self = ∅)) as [Hempty|Hlabels]; simpl.
  - eexists. split; [done|]. right.
    exists (if (idx =? 1)%nat then "FAKE" else "REAL"), c, idx, logits.
    repeat split; auto.
  - unfold dict_getitem_int.
    destruct (id2label self !! idx) as [label|] eqn:Hlabel; simpl; [|by eauto].
    eexists. split; [done|]. right. exists label, c, idx, logits.
    repeat split; auto.
Qed.

(** [predict_single_video] never raises.  A prediction record carries
    the scores of the softmax; its confidence is the score at the
    predicted index, which is the largest of them, is positive and at
    most 1, and no score is negative; the label is the entry of
    [id2label] at that index, or, for a model without labels, "FAKE"
    for index 1 and "REAL" for any other. *)
Theorem prediction_record_probabilities (self : DeepfakeDetector)
    (video_path : string) :
  exists r : gmap string value,
    predict_single_video self video_path = Ok r
    /\ ((exists message : string, r = error_result video_path message)
        \/ exists (label : string) (c : R) (idx : nat) (logits : list R),
             r = prediction_record video_path label c idx (softmax logits) logits
             /\ argmax logits = Ok idx
             /\ softmax logits !! idx = Some c
             /\ (forall p : R, p ∈ softmax logits -> 0 <= p <= c)%R
             /\ (0 < c <= 1)%R
             /\ ((id2label self = ∅
                  /\ label = if (idx =? 1)%nat then "FAKE" else "REAL")
                 \/ id2label self !! idx = Some label)).
Proof.
  destruct (predict_single_video_cases self video_path)
    as (r & Hr & [Herr|(label & c & idx & logits & -> & Hidx & Hc & Hlabel)]).
  { exists r. auto. }
  eexists. split; [exact Hr|]. right. exists label, c, idx, logits.
  assert (logits <> []) as Hne by (intros ->; discriminate).
  destruct (NumericFacts.softmax_max_at_argmax logits Hne)
    as (idx' & c' & Hidx' & Hc' & Hat).
  assert (idx' = idx) as -> by congruence.
  assert (c' = c) as -> by congruence.
  pose proof (ConfidenceFacts.tensor_max_softmax_range logits c Hc)
    as [[Hpos Hlo] Hhi].
  split; [done|]. split; [done|]. split; [done|]. split; [|split; [lra|done]].
  intros p Hp. split.
  { pose proof (ConfidenceFacts.softmax_range logits p Hp). lra. }
  destruct (softmax logits) as [|x l] eqn:Hs; [by apply elem_of_nil in Hp|].
  simpl in Hc. injection Hc as <-. by apply ConfidenceFacts.foldl_Rmax_ge.
Qed.








(** The sampler at its edges.  A negative number of samples raises the
    [ValueError] of [np.linspace], whatever the frames; no sample gives
    the empty list; and an empty frame list with a positive number of
    samples raises [IndexError], the padding index being [-1]. *)
Theorem subsample_edge_cases {A : Type} (fp : Rounding) (frames : list A) (N : Z) :
  N <= 0 \/ frames = [] ->
  uniform_temporal_subsample fp frames N
  = if N <? 0
    then Raise (ValueError ("Number of samples, " +:+ pretty N
                            +:+ ", must be non-negative."))
    else if N =? 0 then Ok [] else Raise IndexError.
Proof.
  intros Hedge. unfold uniform_temporal_subsample.
  destruct (Z.ltb_spec N 0) as [Hneg|Hnonneg].
  { unfold subsample_indices, linspace_int.
    destruct (Z.leb_spec (Z.of_nat (length frames)) N); [lia|].
    by destruct (Z.ltb_spec N 0); [|lia]. }
  destruct (Z.eqb_spec N 0) as [->|Hpos].
  { destruct (decide (length frames = 0)%nat) as [Hlen|Hlen].
    - rewrite SamplerFacts.subsample_indices_short by lia. by rewrite Hlen.
    - by rewrite SamplerFacts.subsample_indices_long by lia. }
  destruct Hedge as [?| ->]; [lia|].
  rewrite SamplerFacts.subsample_indices_short by (simpl; lia). simpl.
  destruct (Z.to_nat N - 0)%nat as [|n] eqn:E; [lia|]. reflexivity.
Qed.

(** No frame, two samples. *)
Lemma subsample_edge_cases_witness :
  uniform_temporal_subsample Examples.exact_arithmetic (@nil nat) 2
  = if 2 <? 0
    then Raise (ValueError ("Number of samples, " +:+ pretty 2
                            +:+ ", must be non-negative."))
    else if 2 =? 0 then Ok [] else Raise IndexError.
Proof.
  apply (subsample_edge_cases Examples.exact_arithmetic (@nil nat) 2).
  right. reflexivity.
Defined.

End VideoRunFacts.

(** ** The image script: one image, and the run over a folder *)

Module ImageRunFacts.
Import DeepfakeImage.










End ImageRunFacts.
